(** * zygl2: a shallow embedding of the resource-monitor domain and stores

    This development models, function by function, the parts of the zygl2
    C++ sources that the stores, the data collector, the UDP broadcaster
    and the stack control service rely on:
    - src/domain/value_objects.h, board.h, chassis.h, alert.h, service.h,
      stack.h
    - src/infrastructure/persistence/in_memory_{chassis,alert,stack}_repository.h
    - src/infrastructure/collectors/data_collector_service.h
    - src/application/services/monitoring_service.h (GetSystemOverview)
    - src/application/services/stack_control_service.h
    - src/interfaces/udp/state_broadcaster.h and udp_protocol.h

    Conventions.  C++ [int32_t] and [uint64_t] values are [Z]; enums that the
    code only ever assigns through named constants are inductive types, enums
    that are filled by [static_cast] from backend integers are [Z].  A
    fixed-size [char[N]] field is the [string] it holds up to its first NUL.
    [std::map<std::string, T>] is a [gmap string T]; [std::array] and
    [std::vector] are lists, updated in place with stdpp's list [insert].
    Floating-point resource figures are not modelled: nothing below reads
    them. *)

From Stdlib Require Import ZArith Lia.
From stdpp Require Import base list gmap strings fin_maps.

Open Scope Z_scope.

(* ===================================================================== *)
(** ** Part I: definitions                                               *)
(* ===================================================================== *)

(* --------------------------------------------------------------------- *)
(** *** Alerts (src/domain/alert.h)                                       *)
(* --------------------------------------------------------------------- *)

Inductive AlertType := AlertType_Board | AlertType_Component.

(** The fields of [Alert] that its methods and the store read.  The
    location and component fields are carried as opaque strings. *)
Record Alert := mkAlert {
  m_alertUUID : string;
  m_alertType : AlertType;
  m_timestamp : Z;              (* uint64_t, Unix seconds *)
  m_isAcknowledged : bool;
  m_relatedEntity : string;
  m_messages : list string;
}.

Definition Alert_GetAlertUUID (a : Alert) : string := m_alertUUID a.
Definition Alert_IsAcknowledged (a : Alert) : bool := m_isAcknowledged a.

(** [void Acknowledge() { m_isAcknowledged = true; }] *)
Definition Alert_Acknowledge (a : Alert) : Alert :=
  {| m_alertUUID := m_alertUUID a; m_alertType := m_alertType a;
     m_timestamp := m_timestamp a; m_isAcknowledged := true;
     m_relatedEntity := m_relatedEntity a; m_messages := m_messages a |}.

(** [GetAgeInSeconds]: [now] is the value [GetCurrentTimestamp()] returns
    while the store is being scanned. *)
Definition Alert_GetAgeInSeconds (now : Z) (a : Alert) : Z :=
  if Z.ltb (m_timestamp a) now then now - m_timestamp a else 0.

Definition AlertType_eqb (t1 t2 : AlertType) : bool :=
  match t1, t2 with
  | AlertType_Board, AlertType_Board | AlertType_Component, AlertType_Component => true
  | _, _ => false
  end.

(** [IsBoardAlert] / [IsComponentAlert]: [m_alertType == AlertType::...]. *)
Definition Alert_IsBoardAlert (a : Alert) : bool := AlertType_eqb (m_alertType a) AlertType_Board.
Definition Alert_IsComponentAlert (a : Alert) : bool :=
  AlertType_eqb (m_alertType a) AlertType_Component.

(* --------------------------------------------------------------------- *)
(** *** InMemoryAlertRepository                                           *)
(* --------------------------------------------------------------------- *)

Module AlertRepo.

Abbreviation store := (gmap string Alert).

(** [m_alerts[std::string(alert.GetAlertUUID())] = alert;] *)
Definition Save (a : Alert) (m : store) : store :=
  <[Alert_GetAlertUUID a := a]> m.

Definition FindByUUID (u : string) (m : store) : option Alert := m !! u.

(** [GetAllActive] copies every stored value, in key order. *)
Definition GetAllActive (m : store) : list Alert := snd <$> map_to_list m.

Definition GetUnacknowledged (m : store) : list Alert :=
  filter (fun a => Alert_IsAcknowledged a = false) (GetAllActive m).

(** [Acknowledge]: find, set the flag, report whether it was found. *)
Definition Acknowledge (u : string) (m : store) : bool * store :=
  match m !! u with
  | Some a => (true, <[u := Alert_Acknowledge a]> m)
  | None => (false, m)
  end.

Definition AcknowledgeMultiple (us : list string) (m : store) : nat * store :=
  foldl (fun acc u =>
           let '(count, m0) := acc in
           match m0 !! u with
           | Some a => (S count, <[u := Alert_Acknowledge a]> m0)
           | None => (count, m0)
           end) (0%nat, m) us.

(** [return m_alerts.erase(alertUUID) > 0;] *)
Definition Remove (u : string) (m : store) : bool * store :=
  (bool_decide (is_Some (m !! u)), delete u m).

(** The erase condition of [RemoveExpired]. *)
Definition expired (now maxAgeSeconds : Z) (a : Alert) : bool :=
  Alert_IsAcknowledged a && Z.ltb maxAgeSeconds (Alert_GetAgeInSeconds now a).

(** Some entry of [l] with key [u] is expired. *)
Definition exp_in (now maxAgeSeconds : Z) (l : list (string * Alert)) (u : string) : Prop :=
  exists kv, kv ∈ l /\ kv.1 = u /\ expired now maxAgeSeconds kv.2 = true.

(** The [while (it != m_alerts.end())] loop: one step per stored entry,
    erasing it and counting it when it is expired. *)
Definition RemoveExpired_step (now maxAgeSeconds : Z)
    (acc : store * nat) (kv : string * Alert) : store * nat :=
  let '(m0, removedCount) := acc in
  if expired now maxAgeSeconds kv.2
  then (delete kv.1 m0, S removedCount)
  else (m0, removedCount).

Definition RemoveExpired (now maxAgeSeconds : Z) (m : store) : store * nat :=
  foldl (RemoveExpired_step now maxAgeSeconds) (m, 0%nat) (map_to_list m).

Definition Clear (m : store) : store := ∅.

Definition Count (m : store) : nat := size m.

(** The mutating operations of the repository interface. *)
Inductive op :=
  | OpSave (a : Alert)
  | OpAcknowledge (u : string)
  | OpAcknowledgeMultiple (us : list string)
  | OpRemove (u : string)
  | OpRemoveExpired (now maxAgeSeconds : Z)
  | OpClear.

Definition run_op (o : op) (m : store) : store :=
  match o with
  | OpSave a => Save a m
  | OpAcknowledge u => snd (Acknowledge u m)
  | OpAcknowledgeMultiple us => snd (AcknowledgeMultiple us m)
  | OpRemove u => snd (Remove u m)
  | OpRemoveExpired now t => fst (RemoveExpired now t m)
  | OpClear => Clear m
  end.

(** Remove, RemoveExpired and Clear are the operations that erase. *)
Definition erasing_op (o : op) : bool :=
  match o with
  | OpRemove _ | OpRemoveExpired _ _ | OpClear => true
  | _ => false
  end.

(** [FindByType]: the stored alerts of one type, in key order. *)
Definition FindByType (type : AlertType) (m : store) : list Alert :=
  filter (fun a => AlertType_eqb (m_alertType a) type = true) (GetAllActive m).

(** [FindByEntity]: [std::string(alert.GetRelatedEntity()) == entityID]. *)
Definition FindByEntity (entityID : string) (m : store) : list Alert :=
  filter (fun a => m_relatedEntity a = entityID) (GetAllActive m).

(** The counting loop of [CountUnacknowledged], [CountBoardAlerts] and
    [CountComponentAlerts]: [count++] for each stored entry that passes. *)
Definition count_if (p : Alert -> bool) (m : store) : nat :=
  foldl (fun count kv => if p kv.2 then S count else count) 0%nat (map_to_list m).

Definition CountUnacknowledged (m : store) : nat :=
  count_if (fun a => negb (Alert_IsAcknowledged a)) m.
Definition CountBoardAlerts (m : store) : nat := count_if Alert_IsBoardAlert m.
Definition CountComponentAlerts (m : store) : nat := count_if Alert_IsComponentAlert m.

End AlertRepo.

(** Sample alerts used by the examples and witnesses. *)
Definition sample_a1 : Alert := mkAlert "a1" AlertType_Board 100 true "b" [].
Definition sample_a2 : Alert := mkAlert "a2" AlertType_Board 100 false "b" [].
Definition sample_a3 : Alert := mkAlert "a3" AlertType_Board 195 true "b" [].

(* --------------------------------------------------------------------- *)
(** *** Value objects and Board (value_objects.h, board.h)                *)
(* --------------------------------------------------------------------- *)

Definition MAX_TASKS_PER_BOARD : nat := 8.
Definition BOARDS_PER_CHASSIS : nat := 14.
Definition TOTAL_CHASSIS_COUNT : nat := 9.

Inductive BoardType := BoardType_Computing | BoardType_Switch | BoardType_Power.

Inductive BoardOperationalStatus :=
  | BOS_Unknown | BOS_Normal | BOS_Abnormal | BOS_Offline.

(** The underlying [int32_t] of the enum: -1, 0, 1, 2. *)
Definition BoardOperationalStatus_value (s : BoardOperationalStatus) : Z :=
  match s with
  | BOS_Unknown => -1 | BOS_Normal => 0 | BOS_Abnormal => 1 | BOS_Offline => 2
  end.

Definition BoardOperationalStatus_eqb (s1 s2 : BoardOperationalStatus) : bool :=
  Z.eqb (BoardOperationalStatus_value s1) (BoardOperationalStatus_value s2).

(** What [strncpy(dst, src.c_str(), N - 1); dst[N - 1] = 0] leaves in a
    [char[N]] field: the source up to its first NUL, cut to N - 1 bytes. *)
Fixpoint c_str (s : string) : string :=
  match s with
  | EmptyString => EmptyString
  | String c s' => if Ascii.eqb c (Ascii.ascii_of_nat 0) then EmptyString
                   else String c (c_str s')
  end.

Definition strncpy_field (N : nat) (s : string) : string :=
  String.substring 0 (N - 1) (c_str s).

(** [struct TaskStatusInfo]: six fixed-size C strings. *)
Record TaskStatusInfo := mkTaskStatusInfo {
  tsi_taskID : string;        (* char[64]  *)
  tsi_taskStatus : string;    (* char[32]  *)
  tsi_serviceName : string;   (* char[128] *)
  tsi_serviceUUID : string;   (* char[64]  *)
  tsi_stackName : string;     (* char[128] *)
  tsi_stackUUID : string;     (* char[64]  *)
}.

(** [std::memset(&t, 0, sizeof(TaskStatusInfo))]: every field empty. *)
Definition TaskStatusInfo_zero : TaskStatusInfo :=
  mkTaskStatusInfo "" "" "" "" "" "".

Record Board := mkBoard {
  m_boardAddress : string;                 (* char[16] *)
  m_boardNumber : Z;
  m_boardType : BoardType;
  m_status : BoardOperationalStatus;
  m_taskCount : Z;
  m_tasks : list TaskStatusInfo;           (* std::array<_, 8> *)
}.

(** [Board()]: no address, slot 0, Computing, Unknown, 8 zeroed tasks. *)
Definition Board_default : Board :=
  mkBoard "" 0 BoardType_Computing BOS_Unknown 0
    (replicate MAX_TASKS_PER_BOARD TaskStatusInfo_zero).

Definition Board_CanRunTasks (b : Board) : bool :=
  match m_boardType b with BoardType_Computing => true | _ => false end.

Definition Board_IsAbnormal (b : Board) : bool :=
  match m_status b with BOS_Abnormal | BOS_Offline => true | _ => false end.

Definition Board_IsOnline (b : Board) : bool :=
  match m_status b with BOS_Normal | BOS_Abnormal => true | _ => false end.

(** The first loop of [UpdateFromApiData]:
    [for (i = 0; i < tasksFromApi.size() && i < 8; ++i)
       { m_tasks[i] = tasksFromApi[i]; m_taskCount++; }] *)
Fixpoint copy_tasks_loop (i : nat) (src : list TaskStatusInfo)
    (tasks : list TaskStatusInfo) (count : Z) : list TaskStatusInfo * Z :=
  match src with
  | [] => (tasks, count)
  | t :: src' =>
      if Nat.ltb i MAX_TASKS_PER_BOARD
      then copy_tasks_loop (S i) src' (<[i := t]> tasks) (count + 1)
      else (tasks, count)
  end.

(** [for (i = from; i < 8; ++i) std::memset(&m_tasks[i], 0, ...)], run
    [fuel = 8 - from] times. *)
Fixpoint zero_tasks_loop (i fuel : nat) (tasks : list TaskStatusInfo)
    : list TaskStatusInfo :=
  match fuel with
  | O => tasks
  | S fuel' => zero_tasks_loop (S i) fuel' (<[i := TaskStatusInfo_zero]> tasks)
  end.

Definition zero_tasks_from (from : Z) (tasks : list TaskStatusInfo) :=
  zero_tasks_loop (Z.to_nat from) (MAX_TASKS_PER_BOARD - Z.to_nat from) tasks.

Definition Board_with (b : Board) (st : BoardOperationalStatus) (count : Z)
    (tasks : list TaskStatusInfo) : Board :=
  mkBoard (m_boardAddress b) (m_boardNumber b) (m_boardType b) st count tasks.

(** [Board::UpdateFromApiData]. *)
Definition Board_UpdateFromApiData (b : Board) (statusFromApi : Z)
    (tasksFromApi : list TaskStatusInfo) : Board :=
  let st := if Z.eqb statusFromApi 0 then BOS_Normal else BOS_Abnormal in
  if negb (Board_CanRunTasks b) then Board_with b st 0 (m_tasks b)
  else
    let '(tasks1, count) := copy_tasks_loop 0 tasksFromApi (m_tasks b) 0 in
    Board_with b st count (zero_tasks_from count tasks1).

(** [Board::MarkAsOffline]. *)
Definition Board_MarkAsOffline (b : Board) : Board :=
  Board_with b BOS_Offline 0 (zero_tasks_loop 0 MAX_TASKS_PER_BOARD (m_tasks b)).

(* --------------------------------------------------------------------- *)
(** *** Chassis (chassis.h)                                               *)
(* --------------------------------------------------------------------- *)

Record Chassis := mkChassis {
  m_chassisName : string;
  m_chassisNumber : Z;
  m_boards : list Board;                   (* std::array<Board, 14> *)
}.

(** [Chassis()]: number 0, 14 default boards. *)
Definition Chassis_default : Chassis :=
  mkChassis "" 0 (replicate BOARDS_PER_CHASSIS Board_default).

Definition count_boards (p : Board -> bool) (c : Chassis) : Z :=
  Z.of_nat (length (filter (fun b => p b = true) (m_boards c))).

Definition Chassis_CountNormalBoards (c : Chassis) : Z :=
  count_boards (fun b => BoardOperationalStatus_eqb (m_status b) BOS_Normal) c.

Definition Chassis_CountAbnormalBoards (c : Chassis) : Z :=
  count_boards Board_IsAbnormal c.

Definition Chassis_CountOfflineBoards (c : Chassis) : Z :=
  count_boards (fun b => BoardOperationalStatus_eqb (m_status b) BOS_Offline) c.

Definition Chassis_CountTotalTasks (c : Chassis) : Z :=
  foldl (fun count b => if Board_CanRunTasks b then count + m_taskCount b else count)
    0 (m_boards c).

(** [GetBoardByAddress]: the first board whose address [strcmp]s equal. *)
Definition Chassis_GetBoardByAddress (addr : string) (c : Chassis) : option Board :=
  List.find (fun b => String.eqb (m_boardAddress b) addr) (m_boards c).

(** [AddOrUpdateBoard]: [m_boards[number - 1] = board] when the slot is in
    1..14, nothing otherwise. *)
Definition Chassis_AddOrUpdateBoard (b : Board) (c : Chassis) : Chassis :=
  let slotIndex := m_boardNumber b - 1 in
  if (0 <=? slotIndex) && (slotIndex <? Z.of_nat BOARDS_PER_CHASSIS)
  then mkChassis (m_chassisName c) (m_chassisNumber c)
         (<[Z.to_nat slotIndex := b]> (m_boards c))
  else c.

(** [GetBoardByNumber]: [nullptr] outside slots 1..14. *)
Definition Chassis_GetBoardByNumber (boardNumber : Z) (c : Chassis) : option Board :=
  let slotIndex := boardNumber - 1 in
  if (0 <=? slotIndex) && (slotIndex <? Z.of_nat BOARDS_PER_CHASSIS)
  then m_boards c !! Z.to_nat slotIndex
  else None.

(* --------------------------------------------------------------------- *)
(** *** InMemoryChassisRepository (double buffer)                        *)
(* --------------------------------------------------------------------- *)

Module ChassisRepo.

(** The two buffers a pointer can designate. *)
Inductive buffer := Buffer_A | Buffer_B.

Record state := mkState {
  m_buffer_A : list Chassis;               (* std::array<Chassis, 9> *)
  m_buffer_B : list Chassis;
  m_activeBuffer : buffer;                 (* std::atomic<ChassisArray*> *)
  m_backBuffer : buffer;                   (* ChassisArray* *)
}.

Definition deref (st : state) (p : buffer) : list Chassis :=
  match p with Buffer_A => m_buffer_A st | Buffer_B => m_buffer_B st end.

(** [*p = arr]: overwrite the buffer [p] points to. *)
Definition store_to (st : state) (p : buffer) (arr : list Chassis) : state :=
  match p with
  | Buffer_A => mkState arr (m_buffer_B st) (m_activeBuffer st) (m_backBuffer st)
  | Buffer_B => mkState (m_buffer_A st) arr (m_activeBuffer st) (m_backBuffer st)
  end.

(** The constructor: both buffers hold 9 default chassis, A is active. *)
Definition new : state :=
  mkState (replicate TOTAL_CHASSIS_COUNT Chassis_default)
          (replicate TOTAL_CHASSIS_COUNT Chassis_default) Buffer_A Buffer_B.

(** [Initialize]: both buffers get the topology, A is active. *)
Definition Initialize (initial : list Chassis) (st : state) : state :=
  mkState initial initial Buffer_A Buffer_B.

(** [SaveAll]: write the back buffer, swap the active pointer to it, and
    make the old active buffer the new back buffer. *)
Definition SaveAll (allChassis : list Chassis) (st : state) : state :=
  let st1 := store_to st (m_backBuffer st) allChassis in
  let oldActive := m_activeBuffer st1 in
  mkState (m_buffer_A st1) (m_buffer_B st1) (m_backBuffer st1) oldActive.

(** [Save]: write one chassis into the back buffer at [number - 1]. *)
Definition Save (c : Chassis) (st : state) : state :=
  let index := m_chassisNumber c - 1 in
  if (0 <=? index) && (index <? Z.of_nat TOTAL_CHASSIS_COUNT)
  then store_to st (m_backBuffer st)
         (<[Z.to_nat index := c]> (deref st (m_backBuffer st)))
  else st.

Definition active (st : state) : list Chassis := deref st (m_activeBuffer st).

Definition GetAll (st : state) : list Chassis := active st.

(** [FindByNumber]; [active->at(index)] is always in range on a 9-entry
    array, the [None] of the list lookup is never reached there. *)
Definition FindByNumber (chassisNumber : Z) (st : state) : option Chassis :=
  if (chassisNumber <? 1) || (Z.of_nat TOTAL_CHASSIS_COUNT <? chassisNumber)
  then None
  else match active st !! Z.to_nat (chassisNumber - 1) with
       | Some c => if Z.eqb (m_chassisNumber c) 0 then None else Some c
       | None => None
       end.

Definition FindByBoardAddress (addr : string) (st : state) : option Chassis :=
  List.find (fun c => negb (Z.eqb (m_chassisNumber c) 0) &&
                      bool_decide (is_Some (Chassis_GetBoardByAddress addr c)))
    (active st).

(** The loop shared by the counters: sum over initialised chassis. *)
Definition sum_initialised (f : Chassis -> Z) (st : state) : Z :=
  foldl (fun count c => if negb (Z.eqb (m_chassisNumber c) 0) then count + f c else count)
    0 (active st).

Definition CountTotalBoards (st : state) : Z :=
  sum_initialised (fun _ => Z.of_nat BOARDS_PER_CHASSIS) st.
Definition CountNormalBoards (st : state) : Z :=
  sum_initialised Chassis_CountNormalBoards st.
Definition CountAbnormalBoards (st : state) : Z :=
  sum_initialised Chassis_CountAbnormalBoards st.
Definition CountOfflineBoards (st : state) : Z :=
  sum_initialised Chassis_CountOfflineBoards st.
Definition CountTotalTasks (st : state) : Z :=
  sum_initialised Chassis_CountTotalTasks st.

(** The two buffer pointers designate different buffers. *)
Definition buffers_distinct (st : state) : Prop := m_activeBuffer st <> m_backBuffer st.

End ChassisRepo.

(* --------------------------------------------------------------------- *)
(** *** ChassisFactory (config/chassis_factory.h, domain.h)               *)
(* --------------------------------------------------------------------- *)

(** [BoardSlotHelper::GetBoardTypeBySlot]. *)
Definition GetBoardTypeBySlot (slotNumber : Z) : BoardType :=
  if (slotNumber =? 6) || (slotNumber =? 7) then BoardType_Switch
  else if (slotNumber =? 13) || (slotNumber =? 14) then BoardType_Power
  else BoardType_Computing.

(** The decimal digits of [n >= 0], most significant first, prepended to
    [acc]; [fuel] bounds the number of digits. *)
Fixpoint decimal_digits (fuel : nat) (n : Z) (acc : string) : string :=
  match fuel with
  | O => acc
  | S fuel' =>
      let acc' := String (Ascii.ascii_of_nat (48 + Z.to_nat (n mod 10))) acc in
      if n <? 10 then acc' else decimal_digits fuel' (n / 10) acc'
  end.

(** What [printf] writes for [%d] on an [int32_t] (at most 10 digits);
    character 45 is the minus sign. *)
Definition format_d (n : Z) : string :=
  if n <? 0 then String (Ascii.ascii_of_nat 45) (decimal_digits 16 (- n) "")
  else decimal_digits 16 n "".

(** [%02d]: one leading zero (character 48) for 0..9; other values have two characters
    or more already. *)
Definition format_02d (n : Z) : string :=
  if (0 <=? n) && (n <? 10) then String (Ascii.ascii_of_nat 48) (format_d n) else format_d n.

(** [snprintf(buf, N, ...)] keeps the first [N - 1] bytes of the output. *)
Definition snprintf_field (N : nat) (out : string) : string :=
  String.substring 0 (N - 1) out.

(** [Board(address, number, type)]: status Unknown, no task, zeroed slots. *)
Definition Board_new (address : string) (number : Z) (type : BoardType) : Board :=
  mkBoard (strncpy_field 16 address) number type BOS_Unknown 0
    (replicate MAX_TASKS_PER_BOARD TaskStatusInfo_zero).

(** [Chassis(number, name)]: the 14 boards are default-constructed. *)
Definition Chassis_new (number : Z) (name : string) : Chassis :=
  mkChassis (strncpy_field 64 name) number (replicate BOARDS_PER_CHASSIS Board_default).

Record ChassisConfig := mkChassisConfig {
  cc_chassisNumber : Z;
  cc_chassisName : string;
  cc_ipBaseAddress : string;
  cc_ipStartOffset : Z;
}.

(** [CreateBoard]: [snprintf(ipAddress, 16, "%s.%d", base, offset + slot)].
    The sum is taken unbounded: an overflowing [int32_t] sum is undefined
    behaviour in C++. *)
Definition CreateBoard (config : ChassisConfig) (slotNumber : Z) : Board :=
  let type := GetBoardTypeBySlot slotNumber in
  let ipAddress := snprintf_field 16
        (c_str (cc_ipBaseAddress config) ++ "." ++
         format_d (cc_ipStartOffset config + slotNumber)) in
  Board_new ipAddress slotNumber type.

(** [CreateChassis]: [for (slot = 1; slot <= 14; ++slot)
      chassis.AddOrUpdateBoard(CreateBoard(config, slot));] *)
Definition CreateChassis (config : ChassisConfig) : Chassis :=
  foldl (fun chassis slot => Chassis_AddOrUpdateBoard (CreateBoard config slot) chassis)
    (Chassis_new (cc_chassisNumber config) (cc_chassisName config))
    (Z.of_nat <$> seq 1 BOARDS_PER_CHASSIS).

(** [CreateDefaultConfig]: name ["机箱-%02d"], base ["192.168.%d"],
    offset 100. *)
Definition CreateDefaultConfig (chassisNumber : Z) : ChassisConfig :=
  mkChassisConfig chassisNumber
    (snprintf_field 32 ("机箱-" ++ format_02d chassisNumber))
    (snprintf_field 16 ("192.168." ++ format_d chassisNumber))
    100.

(** [CreateFullTopology()]: [topology[n - 1] = CreateChassis(CreateDefaultConfig(n))]
    for [n = 1..9], on an array of default chassis. *)
Definition CreateFullTopology : list Chassis :=
  foldl (fun topology chassisNum =>
           <[Z.to_nat (chassisNum - 1) := CreateChassis (CreateDefaultConfig chassisNum)]>
             topology)
    (replicate TOTAL_CHASSIS_COUNT Chassis_default) (Z.of_nat <$> seq 1 TOTAL_CHASSIS_COUNT).

(* --------------------------------------------------------------------- *)
(** *** DataCollectorService::CollectBoardInfo                           *)
(* --------------------------------------------------------------------- *)

(** [BoardInfoData::TaskInfo] and [BoardInfoData] as parsed from
    [GET /boardinfo]. *)
Record BoardTaskInfo := mkBoardTaskInfo {
  bti_taskID : string; bti_taskStatus : string;
  bti_serviceName : string; bti_serviceUUID : string;
  bti_stackName : string; bti_stackUUID : string;
}.

Record BoardInfoData := mkBoardInfoData {
  bi_chassisName : string; bi_chassisNumber : Z;
  bi_boardName : string; bi_boardNumber : Z; bi_boardType : Z;
  bi_boardAddress : string; bi_boardStatus : Z;
  bi_taskInfos : list BoardTaskInfo;
}.

(** [ConvertTasks]: each string is copied with [Set...] (strncpy). *)
Definition ConvertTasks (taskInfos : list BoardTaskInfo) : list TaskStatusInfo :=
  map (fun ti => mkTaskStatusInfo
         (strncpy_field 64 (bti_taskID ti)) (strncpy_field 32 (bti_taskStatus ti))
         (strncpy_field 128 (bti_serviceName ti)) (strncpy_field 64 (bti_serviceUUID ti))
         (strncpy_field 128 (bti_stackName ti)) (strncpy_field 64 (bti_stackUUID ti)))
    taskInfos.

(** The inner search: the first reported entry with the board's address. *)
Definition find_board_info (boardInfos : list BoardInfoData) (boardAddr : string)
    : option BoardInfoData :=
  List.find (fun bi => String.eqb (bi_boardAddress bi) boardAddr) boardInfos.

Definition collect_board (boardInfos : list BoardInfoData) (b : Board) : Board :=
  match find_board_info boardInfos (m_boardAddress b) with
  | Some bi => Board_UpdateFromApiData b (bi_boardStatus bi) (ConvertTasks (bi_taskInfos bi))
  | None => Board_MarkAsOffline b
  end.

(** Step 4: uninitialised chassis (number 0) are skipped. *)
Definition collect_chassis (boardInfos : list BoardInfoData) (c : Chassis) : Chassis :=
  if Z.eqb (m_chassisNumber c) 0 then c
  else mkChassis (m_chassisName c) (m_chassisNumber c)
         (collect_board boardInfos <$> m_boards c).

(** [CollectBoardInfo]: [None] is a failed backend call (skip the tick);
    otherwise update a copy of [GetAll()] and commit it with [SaveAll]. *)
Definition CollectBoardInfo (boardInfosOpt : option (list BoardInfoData))
    (repo : ChassisRepo.state) : ChassisRepo.state :=
  match boardInfosOpt with
  | None => repo
  | Some boardInfos =>
      let allChassis := collect_chassis boardInfos <$> ChassisRepo.GetAll repo in
      ChassisRepo.SaveAll allChassis repo
  end.

(** Sample chassis data used by the examples and witnesses: one configured
    chassis (number 1) whose slot 1 is a computing board. *)
Definition sample_board : Board :=
  mkBoard "192.168.1.101" 1 BoardType_Computing BOS_Unknown 0
    (replicate MAX_TASKS_PER_BOARD TaskStatusInfo_zero).
Definition sample_chassis : Chassis := mkChassis "c1" 1 [sample_board].
Definition sample_repo : ChassisRepo.state :=
  ChassisRepo.Initialize [sample_chassis] ChassisRepo.new.
Definition sample_task_info : BoardTaskInfo :=
  mkBoardTaskInfo "t1" "running" "svc" "svc-1" "stk" "stk-1".
Definition sample_board_info : BoardInfoData :=
  mkBoardInfoData "c1" 1 "b1" 1 0 "192.168.1.101" 0 [sample_task_info].

(* --------------------------------------------------------------------- *)
(** *** MonitoringService::GetSystemOverview and the state broadcaster    *)
(* --------------------------------------------------------------------- *)

Definition BoardType_value (t : BoardType) : Z :=
  match t with BoardType_Computing => 0 | BoardType_Switch => 1 | BoardType_Power => 2 end.

(** [BoardDTO] and [ChassisDTO]; the per-chassis counters of [ChassisDTO]
    and the system-wide counters of [SystemOverviewDTO] are not read by the
    broadcaster and are left out. *)
Record BoardDTO := mkBoardDTO {
  bd_boardAddress : string; bd_boardNumber : Z; bd_boardType : Z;
  bd_boardStatus : Z; bd_taskCount : Z;
  bd_taskIDs : list string; bd_taskStatuses : list string;
}.

Record ChassisDTO := mkChassisDTO {
  cd_chassisNumber : Z; cd_chassisName : string; cd_boards : list BoardDTO }.

(** [ConvertBoardToDTO]: ids and statuses of the slots [i < taskCount],
    [i < 8]. *)
Definition ConvertBoardToDTO (b : Board) : BoardDTO :=
  let shown := take (Nat.min (Z.to_nat (m_taskCount b)) MAX_TASKS_PER_BOARD) (m_tasks b) in
  mkBoardDTO (m_boardAddress b) (m_boardNumber b) (BoardType_value (m_boardType b))
    (BoardOperationalStatus_value (m_status b)) (m_taskCount b)
    (tsi_taskID <$> shown) (tsi_taskStatus <$> shown).

Definition ConvertChassisToDTO (c : Chassis) : ChassisDTO :=
  mkChassisDTO (m_chassisNumber c) (m_chassisName c) (ConvertBoardToDTO <$> m_boards c).

(** [GetSystemOverview]: the chassis list, skipping chassis number 0. *)
Definition GetSystemOverview (repo : ChassisRepo.state) : list ChassisDTO :=
  ConvertChassisToDTO <$> filter (fun c => m_chassisNumber c <> 0) (ChassisRepo.GetAll repo).

(** [ResourceMonitorResponsePacket] (pack(1)); bytes are [Z]s in 0..255
    and the arrays are nested lists. *)
Record ResourceMonitorResponsePacket := mkRMPacket {
  rm_header : list Z;                   (* char[22] *)
  rm_commandCode : Z;                   (* uint16_t *)
  rm_responseID : Z;                    (* uint32_t *)
  rm_boardStates : list (list Z);       (* uint8_t[9][12] *)
  rm_taskStates : list (list (list Z)); (* uint8_t[9][12][8] *)
}.

(** The constructor followed by the two [memset]s of the broadcaster. *)
Definition RMPacket_new (responseID : Z) : ResourceMonitorResponsePacket :=
  mkRMPacket (replicate 22 0) 0xF000 responseID
    (replicate 9 (replicate 12 0)) (replicate 9 (replicate 12 (replicate 8 0))).

(** The task-status rule of the inner loop. *)
Definition task_code (status : string) : Z :=
  if String.eqb status "" || String.eqb status "unknown" then 0
  else if String.eqb status "normal" || String.eqb status "running" then 1
  else 2.

(** [for (taskIdx = 0; taskIdx < taskStatuses.size() && taskIdx < 8; ++taskIdx)] *)
Fixpoint fill_tasks (taskIdx : nat) (statuses : list string) (row : list Z) : list Z :=
  match statuses with
  | [] => row
  | st :: sts =>
      if Nat.ltb taskIdx 8
      then fill_tasks (S taskIdx) sts (<[taskIdx := task_code st]> row)
      else row
  end.

(** [for (boardIdx = 0; boardIdx < boards.size() && boardIdx < 12; ++boardIdx)] *)
Fixpoint fill_boards (boardIdx : nat) (boards : list BoardDTO)
    (bs : list Z) (ts : list (list Z)) : list Z * list (list Z) :=
  match boards with
  | [] => (bs, ts)
  | bd :: bds =>
      if Nat.ltb boardIdx 12
      then fill_boards (S boardIdx) bds
             (<[boardIdx := if Z.eqb (bd_boardStatus bd) 0 then 1 else 0]> bs)
             (alter (fill_tasks 0 (bd_taskStatuses bd)) boardIdx ts)
      else (bs, ts)
  end.

(** One chassis of the outer loop: [chassisIndex = chassisNumber - 1],
    skipped outside 0..8. *)
Definition fill_chassis (pkt : ResourceMonitorResponsePacket) (d : ChassisDTO)
    : ResourceMonitorResponsePacket :=
  let idx := cd_chassisNumber d - 1 in
  if (idx <? 0) || (9 <=? idx) then pkt
  else
    let i := Z.to_nat idx in
    match rm_boardStates pkt !! i, rm_taskStates pkt !! i with
    | Some bs, Some ts =>
        let '(bs', ts') := fill_boards 0 (cd_boards d) bs ts in
        mkRMPacket (rm_header pkt) (rm_commandCode pkt) (rm_responseID pkt)
          (<[i := bs']> (rm_boardStates pkt)) (<[i := ts']> (rm_taskStates pkt))
    | _, _ => pkt
    end.

(** [StateBroadcaster::BroadcastChassisStates]: the packet sent and the
    next value of the static [responseID] counter. *)
Definition BroadcastChassisStates (responseID : Z) (repo : ChassisRepo.state)
    : ResourceMonitorResponsePacket * Z :=
  let next := (responseID + 1) mod 2 ^ 32 in
  let next := if Z.eqb next 0xFFFFFFFF then 0 else next in
  (foldl fill_chassis (RMPacket_new responseID) (GetSystemOverview repo), next).

(** The [n] bytes of [v] in memory order (little-endian host). *)
Definition le_bytes (n : nat) (v : Z) : list Z :=
  map (fun k => Z.land (Z.shiftr v (8 * Z.of_nat k)) 255) (seq 0 n).

(** The bytes given to [sendto]: the struct laid out field by field. *)
Definition serialize (pkt : ResourceMonitorResponsePacket) : list Z :=
  rm_header pkt ++ le_bytes 2 (rm_commandCode pkt) ++ le_bytes 4 (rm_responseID pkt)
  ++ concat (rm_boardStates pkt) ++ concat (concat (rm_taskStates pkt)).

(** Reading [boardStates[i][j]] and [taskStates[i][j][k]]. *)
Definition boardState (pkt : ResourceMonitorResponsePacket) (i j : nat) : option Z :=
  rm_boardStates pkt !! i ≫= fun r => r !! j.

Definition taskState (pkt : ResourceMonitorResponsePacket) (i j k : nat) : option Z :=
  rm_taskStates pkt !! i ≫= fun r => r !! j ≫= fun r' => r' !! k.

(** The array dimensions of the packet fields. *)
Definition RMPacket_shape (pkt : ResourceMonitorResponsePacket) : Prop :=
  length (rm_header pkt) = 22%nat /\
  length (rm_boardStates pkt) = 9%nat /\
  Forall (fun r => length r = 12%nat) (rm_boardStates pkt) /\
  length (rm_taskStates pkt) = 9%nat /\
  Forall (fun r => length r = 12%nat /\ Forall (fun r' => length r' = 8%nat) r)
    (rm_taskStates pkt).

(** Board slots as the collector keeps them: eight slots, a count in
    0..8, empty status strings from the count on, and no task on a board
    that cannot run tasks. *)
Definition Board_wf (b : Board) : Prop :=
  length (m_tasks b) = MAX_TASKS_PER_BOARD /\
  0 <= m_taskCount b <= Z.of_nat MAX_TASKS_PER_BOARD /\
  (m_boardType b <> BoardType_Computing -> m_taskCount b = 0) /\
  (forall k t, m_tasks b !! k = Some t -> Z.of_nat k >= m_taskCount b ->
     tsi_taskStatus t = "").

(** The same check as a boolean function, for concrete boards. *)
Definition Board_wfb (b : Board) : bool :=
  Nat.eqb (length (m_tasks b)) MAX_TASKS_PER_BOARD &&
  Z.leb 0 (m_taskCount b) && Z.leb (m_taskCount b) (Z.of_nat MAX_TASKS_PER_BOARD) &&
  (Board_CanRunTasks b || Z.eqb (m_taskCount b) 0) &&
  forallb (fun x => x)
    (imap (fun k t => Z.ltb (Z.of_nat k) (m_taskCount b) || String.eqb (tsi_taskStatus t) "")
       (m_tasks b)).

(* --------------------------------------------------------------------- *)
(** *** Stack, Service, Task (domain/stack.h, service.h, task.h)          *)
(* --------------------------------------------------------------------- *)

(** Enumerations are [static_cast] from backend integers, so they are kept
    as their [int32_t] values.  A task keeps its id and status only: its
    resources and location are copied verbatim and play no part in any
    status.  A [std::map] keyed by uuid or id is a [gmap]. *)
Module StackDomain.

Definition StackDeployStatus_Undeployed : Z := 0.
Definition StackRunningStatus_Normal : Z := 1.
Definition StackRunningStatus_Abnormal : Z := 2.
Definition ServiceStatus_Disabled : Z := 0.
Definition ServiceStatus_Abnormal : Z := 3.
Definition ServiceType_Normal : Z := 0.
Definition MAX_LABELS_PER_STACK : nat := 8.

Record Task := mkTask { m_taskID : string; m_taskStatus : string }.

Record Service := mkService {
  m_serviceUUID : string; m_serviceName : string;
  m_status : Z; m_type : Z;
  m_tasks : gmap string Task;
}.

Definition Service_new (serviceUUID serviceName : string) : Service :=
  mkService serviceUUID serviceName ServiceStatus_Disabled ServiceType_Normal ∅.

Definition Service_SetStatus (sv : Service) (st : Z) : Service :=
  mkService (m_serviceUUID sv) (m_serviceName sv) st (m_type sv) (m_tasks sv).

Definition Service_SetType (sv : Service) (ty : Z) : Service :=
  mkService (m_serviceUUID sv) (m_serviceName sv) (m_status sv) ty (m_tasks sv).

Definition Service_AddOrUpdateTask (sv : Service) (t : Task) : Service :=
  mkService (m_serviceUUID sv) (m_serviceName sv) (m_status sv) (m_type sv)
    (<[m_taskID t := t]> (m_tasks sv)).

(** [Service::IsAbnormal]: [m_status == ServiceStatus::Abnormal]. *)
Definition Service_IsAbnormal (sv : Service) : bool :=
  Z.eqb (m_status sv) ServiceStatus_Abnormal.

Record StackLabelInfo := mkStackLabelInfo { labelName : string; labelUUID : string }.
Definition StackLabelInfo_zero : StackLabelInfo := mkStackLabelInfo "" "".

Record Stack := mkStack {
  m_stackUUID : string; m_stackName : string;
  m_deployStatus : Z; m_runningStatus : Z;
  m_labelCount : Z; m_labels : list StackLabelInfo;
  m_services : gmap string Service;
}.

Definition Stack_new (stackUUID stackName : string) : Stack :=
  mkStack stackUUID stackName StackDeployStatus_Undeployed StackRunningStatus_Normal
    0 (replicate MAX_LABELS_PER_STACK StackLabelInfo_zero) ∅.

Definition Stack_SetDeployStatus (s : Stack) (st : Z) : Stack :=
  mkStack (m_stackUUID s) (m_stackName s) st (m_runningStatus s)
    (m_labelCount s) (m_labels s) (m_services s).

Definition Stack_SetRunningStatus (s : Stack) (st : Z) : Stack :=
  mkStack (m_stackUUID s) (m_stackName s) (m_deployStatus s) st
    (m_labelCount s) (m_labels s) (m_services s).

(** [Stack::AddLabel]: refuses a ninth label. *)
Definition Stack_AddLabel (s : Stack) (label : StackLabelInfo) : bool * Stack :=
  if Z.leb (Z.of_nat MAX_LABELS_PER_STACK) (m_labelCount s) then (false, s)
  else (true, mkStack (m_stackUUID s) (m_stackName s) (m_deployStatus s)
                (m_runningStatus s) (m_labelCount s + 1)
                (<[Z.to_nat (m_labelCount s) := label]> (m_labels s)) (m_services s)).

Definition Stack_AddOrUpdateService (s : Stack) (sv : Service) : Stack :=
  mkStack (m_stackUUID s) (m_stackName s) (m_deployStatus s) (m_runningStatus s)
    (m_labelCount s) (m_labels s) (<[m_serviceUUID sv := sv]> (m_services s)).

(** [Stack::RecalculateRunningStatus]: Normal when there is no service,
    Abnormal at the first abnormal service of the map, Normal otherwise. *)
Definition Stack_RecalculateRunningStatus (s : Stack) : Stack :=
  if Nat.eqb (size (m_services s)) 0 then Stack_SetRunningStatus s StackRunningStatus_Normal
  else if existsb (fun kv => Service_IsAbnormal kv.2) (map_to_list (m_services s))
  then Stack_SetRunningStatus s StackRunningStatus_Abnormal
  else Stack_SetRunningStatus s StackRunningStatus_Normal.

(** [StackInfoData] as parsed from [GET /stackinfo]. *)
Record TaskInfoData := mkTaskInfoData { ti_taskID : string; ti_taskStatus : string }.
Record ServiceInfoData := mkServiceInfoData {
  svi_serviceName : string; svi_serviceUUID : string;
  svi_serviceStatus : Z; svi_serviceType : Z;
  svi_taskInfos : list TaskInfoData;
}.
Record LabelInfoData := mkLabelInfoData { li_labelName : string; li_labelUUID : string }.
Record StackInfoData := mkStackInfoData {
  si_stackName : string; si_stackUUID : string;
  si_stackDeployStatus : Z; si_stackRunningStatus : Z;
  si_stackLabelInfos : list LabelInfoData;
  si_serviceInfos : list ServiceInfoData;
}.

Definition ConvertService (svi : ServiceInfoData) : Service :=
  let sv := Service_SetType (Service_SetStatus
              (Service_new (svi_serviceUUID svi) (svi_serviceName svi))
              (svi_serviceStatus svi)) (svi_serviceType svi) in
  foldl (fun sv ti => Service_AddOrUpdateTask sv (mkTask (ti_taskID ti) (ti_taskStatus ti)))
    sv (svi_taskInfos svi).

(** [DataCollectorService::ConvertToStack]. *)
Definition ConvertToStack (si : StackInfoData) : Stack :=
  let s0 := Stack_SetRunningStatus
              (Stack_SetDeployStatus (Stack_new (si_stackUUID si) (si_stackName si))
                 (si_stackDeployStatus si))
              (si_stackRunningStatus si) in
  let s1 := foldl (fun s li => snd (Stack_AddLabel s
                      (mkStackLabelInfo (strncpy_field 128 (li_labelName li))
                                        (strncpy_field 64 (li_labelUUID li)))))
              s0 (si_stackLabelInfos si) in
  foldl (fun s svi => Stack_AddOrUpdateService s (ConvertService svi))
    s1 (si_serviceInfos si).

Definition StackDeployStatus_Deployed : Z := 1.
Definition ServiceStatus_Running : Z := 2.

(** A loop over a container that returns at its first hit. *)
Fixpoint find_first {A B} (f : A -> option B) (l : list A) : option B :=
  match l with
  | [] => None
  | x :: l' => match f x with Some y => Some y | None => find_first f l' end
  end.

(** [Task::IsRunning]. *)
Definition Task_IsRunning (t : Task) : bool :=
  negb (String.eqb (m_taskStatus t) "") && negb (String.eqb (m_taskStatus t) "stopped")
  && negb (String.eqb (m_taskStatus t) "failed").

Definition Service_FindTask (sv : Service) (taskID : string) : option Task :=
  m_tasks sv !! taskID.

Definition Service_GetTaskCount (sv : Service) : nat := size (m_tasks sv).

(** [Service::RecalculateStatus]: unchanged without tasks; the loop stops
    at the first task that is not running, which makes the service
    Abnormal; Running when every task runs. *)
Definition Service_RecalculateStatus (sv : Service) : Service :=
  if Nat.eqb (size (m_tasks sv)) 0 then sv
  else
    let allRunning := forallb (fun kv => Task_IsRunning kv.2) (map_to_list (m_tasks sv)) in
    if allRunning then Service_SetStatus sv ServiceStatus_Running
    else Service_SetStatus sv ServiceStatus_Abnormal.

Definition Stack_FindService (s : Stack) (serviceUUID : string) : option Service :=
  m_services s !! serviceUUID.

(** [RemoveService]: [return m_services.erase(serviceUUID) > 0;] *)
Definition Stack_RemoveService (s : Stack) (serviceUUID : string) : bool * Stack :=
  (bool_decide (is_Some (m_services s !! serviceUUID)),
   mkStack (m_stackUUID s) (m_stackName s) (m_deployStatus s) (m_runningStatus s)
     (m_labelCount s) (m_labels s) (delete serviceUUID (m_services s))).

Definition Stack_GetServiceCount (s : Stack) : nat := size (m_services s).

(** [FindTask]: the task found in the first service that has it. *)
Definition Stack_FindTask (s : Stack) (taskID : string) : option Task :=
  find_first (fun kv => Service_FindTask kv.2 taskID) (map_to_list (m_services s)).

Definition Stack_GetTotalTaskCount (s : Stack) : nat :=
  foldl (fun count kv => (count + Service_GetTaskCount kv.2)%nat) 0%nat
    (map_to_list (m_services s)).

(** [ClearLabels]: count 0 and the eight slots zeroed. *)
Definition Stack_ClearLabels (s : Stack) : Stack :=
  mkStack (m_stackUUID s) (m_stackName s) (m_deployStatus s) (m_runningStatus s)
    0 (replicate MAX_LABELS_PER_STACK StackLabelInfo_zero) (m_services s).

(** [HasLabel]: [for (i = 0; i < m_labelCount; ++i)
      if (strcmp(m_labels[i].labelUUID, labelUUID.c_str()) == 0) return true;] *)
Definition Stack_HasLabel (s : Stack) (u : string) : bool :=
  existsb (fun l => String.eqb (labelUUID l) (c_str u))
    (take (Z.to_nat (m_labelCount s)) (m_labels s)).

Definition Stack_IsDeployed (s : Stack) : bool :=
  Z.eqb (m_deployStatus s) StackDeployStatus_Deployed.
Definition Stack_IsRunningNormally (s : Stack) : bool :=
  Z.eqb (m_runningStatus s) StackRunningStatus_Normal.

(** The label slots as the constructor and [AddLabel] keep them: eight
    slots and a count in 0..8. *)
Definition Stack_labels_wf (s : Stack) : Prop :=
  length (m_labels s) = MAX_LABELS_PER_STACK /\
  0 <= m_labelCount s <= Z.of_nat MAX_LABELS_PER_STACK.

End StackDomain.

(** [InMemoryStackRepository]: a [std::map<std::string, Stack>]. *)
Module StackRepo.
Import StackDomain.

Abbreviation store := (gmap string Stack).

Definition Save (s : Stack) (m : store) : store := <[m_stackUUID s := s]> m.

(** [SaveAll]: [m_stacks[stack.GetStackUUID()] = stack] for each stack in order. *)
Definition SaveAll (stacks : list Stack) (m : store) : store :=
  foldl (fun m s => <[m_stackUUID s := s]> m) m stacks.

Definition FindByUUID (u : string) (m : store) : option Stack := m !! u.

Definition GetAll (m : store) : list Stack := snd <$> map_to_list m.

(** [FindByLabel]: the stored stacks, in key order, that have the label. *)
Definition FindByLabel (labelUUID : string) (m : store) : list Stack :=
  filter (fun s => Stack_HasLabel s labelUUID = true) (GetAll m).

(** [FindStackByTaskID]: the first stored stack whose [FindTask] succeeds. *)
Definition FindStackByTaskID (taskID : string) (m : store) : option Stack :=
  find_first (fun kv => match Stack_FindTask kv.2 taskID with
                        | Some _ => Some kv.2 | None => None end) (map_to_list m).

Definition Remove (u : string) (m : store) : bool * store :=
  (bool_decide (is_Some (m !! u)), delete u m).

Definition Clear (m : store) : store := ∅.

Definition Count (m : store) : nat := size m.

(** The counting loop of [CountDeployed], [CountRunningNormally] and
    [CountAbnormal]. *)
Definition count_if (p : Stack -> bool) (m : store) : nat :=
  foldl (fun count kv => if p kv.2 then S count else count) 0%nat (map_to_list m).

Definition CountDeployed (m : store) : nat := count_if Stack_IsDeployed m.
Definition CountRunningNormally (m : store) : nat := count_if Stack_IsRunningNormally m.
Definition CountAbnormal (m : store) : nat :=
  count_if (fun s => negb (Stack_IsRunningNormally s) && Stack_IsDeployed s) m.

Definition CountTotalTasks (m : store) : nat :=
  foldl (fun count kv => (count + Stack_GetTotalTaskCount kv.2)%nat) 0%nat (map_to_list m).

(** Every stack is stored under its own uuid, as [Save] and [SaveAll]
    store it. *)
Definition keyed (m : store) : Prop :=
  map_Forall (fun k s => m_stackUUID s = k) m.

End StackRepo.

(** [DataCollectorService::CollectStackInfo]. *)
Definition CollectStackInfo (stackInfosOpt : option (list StackDomain.StackInfoData))
    (m : StackRepo.store) : StackRepo.store :=
  match stackInfosOpt with
  | None => m
  | Some stackInfos => StackRepo.SaveAll (StackDomain.ConvertToStack <$> stackInfos) m
  end.

(* --------------------------------------------------------------------- *)
(** *** StackControlService and the UDP command listener                 *)
(* --------------------------------------------------------------------- *)

(** The backend client is a pair of functions ([None] = failed HTTP call);
    the service's effect on the outside world is the list of backend calls
    it makes, threaded as a log.  Exceptions out of the [try] blocks come
    only from allocation and are not modelled. *)
Module StackControl.

Record StackResult := mkStackResult {
  sr_stackName : string; sr_stackUUID : string; sr_message : string }.

Record DeployResponse := mkDeployResponse {
  successStackInfos : list StackResult; failureStackInfos : list StackResult }.

Record DeployResultDTO := mkDeployResultDTO {
  successStacks : list StackResult; failureStacks : list StackResult;
  totalCount : Z; successCount : Z; failureCount : Z }.

(** [DeployResultDTO{}]: empty vectors, zeroed counters. *)
Definition DeployResultDTO_zero : DeployResultDTO := mkDeployResultDTO [] [] 0 0 0.

Record ResponseDTO (T : Type) := mkResponseDTO {
  success : bool; message : string; data : T; errorCode : Z }.
Arguments mkResponseDTO {T}.
Arguments success {T}.
Arguments message {T}.
Arguments data {T}.
Arguments errorCode {T}.

Definition ResponseDTO_Success {T} (d : T) (msg : string) : ResponseDTO T :=
  mkResponseDTO true msg d 0.

(** [ResponseDTO<T>::Failure(msg, code = -1)]; [T{}] is passed as [zero]. *)
Definition ResponseDTO_Failure {T} (zero : T) (msg : string) (code : Z) : ResponseDTO T :=
  mkResponseDTO false msg zero code.

Record DeployCommandDTO := mkDeployCommandDTO { stackLabels : list string }.

Inductive ApiCall := Api_Deploy (labels : list string) | Api_Undeploy (labels : list string).

Record QywApiClient := mkQywApiClient {
  api_Deploy : list string -> option DeployResponse;
  api_Undeploy : list string -> option DeployResponse }.

Definition ConvertDeployResponse (r : DeployResponse) : DeployResultDTO :=
  let ok := successStackInfos r in
  let ko := failureStackInfos r in
  mkDeployResultDTO ok ko (Z.of_nat (length ok + length ko))
    (Z.of_nat (length ok)) (Z.of_nat (length ko)).

Definition msg_empty_labels : string := "标签列表不能为空".
Definition msg_backend_failed : string := "调用后端API失败".

(** [StackControlService::DeployByLabels]. *)
Definition DeployByLabels (api : QywApiClient) (command : DeployCommandDTO)
    (log : list ApiCall) : ResponseDTO DeployResultDTO * list ApiCall :=
  match stackLabels command with
  | [] => (ResponseDTO_Failure DeployResultDTO_zero msg_empty_labels (-1), log)
  | labels =>
      let log' := log ++ [Api_Deploy labels] in
      match api_Deploy api labels with
      | None => (ResponseDTO_Failure DeployResultDTO_zero msg_backend_failed (-1), log')
      | Some r => (ResponseDTO_Success (ConvertDeployResponse r) "Deploy命令执行完成", log')
      end
  end.

(** [StackControlService::UndeployByLabels]. *)
Definition UndeployByLabels (api : QywApiClient) (command : DeployCommandDTO)
    (log : list ApiCall) : ResponseDTO DeployResultDTO * list ApiCall :=
  match stackLabels command with
  | [] => (ResponseDTO_Failure DeployResultDTO_zero msg_empty_labels (-1), log)
  | labels =>
      let log' := log ++ [Api_Undeploy labels] in
      match api_Undeploy api labels with
      | None => (ResponseDTO_Failure DeployResultDTO_zero msg_backend_failed (-1), log')
      | Some r => (ResponseDTO_Success (ConvertDeployResponse r) "Undeploy命令执行完成", log')
      end
  end.

(** [CommandResult] of udp_protocol.h. *)
Inductive CommandResult :=
| CommandResult_Success | CommandResult_Failed | CommandResult_InvalidParameter
| CommandResult_NotFound | CommandResult_Timeout.

Definition CommandResult_value (r : CommandResult) : Z :=
  match r with
  | CommandResult_Success => 0 | CommandResult_Failed => 1
  | CommandResult_InvalidParameter => 2 | CommandResult_NotFound => 3
  | CommandResult_Timeout => 4
  end.

(** The result code the listener puts in its reply. *)
Definition command_result {T} (response : ResponseDTO T) : CommandResult :=
  if success response then CommandResult_Success else CommandResult_Failed.

(** [CommandListener::HandleDeployStack] / [HandleUndeployStack], up to the
    arguments given to [SendCommandResponse]: the label field of the packet
    is read as a C string and sent as a one-element label list. *)
Definition HandleDeployStack (api : QywApiClient) (labelField : string)
    (log : list ApiCall) : (CommandResult * string) * list ApiCall :=
  let '(response, log') := DeployByLabels api (mkDeployCommandDTO [c_str labelField]) log in
  ((command_result response, message response), log').

Definition HandleUndeployStack (api : QywApiClient) (labelField : string)
    (log : list ApiCall) : (CommandResult * string) * list ApiCall :=
  let '(response, log') := UndeployByLabels api (mkDeployCommandDTO [c_str labelField]) log in
  ((command_result response, message response), log').

(** [DeployByLabel] / [UndeployByLabel]: a one-label command. *)
Definition DeployByLabel (api : QywApiClient) (labelUUID : string)
    (log : list ApiCall) : ResponseDTO DeployResultDTO * list ApiCall :=
  DeployByLabels api (mkDeployCommandDTO [labelUUID]) log.

Definition UndeployByLabel (api : QywApiClient) (labelUUID : string)
    (log : list ApiCall) : ResponseDTO DeployResultDTO * list ApiCall :=
  UndeployByLabels api (mkDeployCommandDTO [labelUUID]) log.

(** [PreviewStacksByLabel]: the uuids of [FindByLabel], in its order. *)
Definition PreviewStacksByLabel (repo : StackRepo.store) (labelUUID : string)
    : ResponseDTO (list string) :=
  let stackUUIDs := StackDomain.m_stackUUID <$> StackRepo.FindByLabel labelUUID repo in
  ResponseDTO_Success stackUUIDs
    ("找到 " ++ format_d (Z.of_nat (length stackUUIDs)) ++ " 个业务链路").

(** A backend that accepts everything. *)
Definition sample_api : QywApiClient :=
  mkQywApiClient (fun _ => Some (mkDeployResponse [] []))
                 (fun _ => Some (mkDeployResponse [] [])).

End StackControl.

(* ===================================================================== *)
(** ** Part II: theorems                                                 *)
(* ===================================================================== *)

Module AlertRepoFacts.
Import AlertRepo.

Example remove_expired_small :
  let '(m', n) := RemoveExpired 200 60 (Save sample_a3 (Save sample_a2 (Save sample_a1 ∅))) in
  n = 1%nat /\ m' = Save sample_a3 (Save sample_a2 ∅).
Proof. vm_compute. split; reflexivity. Qed.

Lemma expired_true_iff (now maxAgeSeconds : Z) (a : Alert) :
  expired now maxAgeSeconds a = true <->
  Alert_IsAcknowledged a = true /\ Alert_GetAgeInSeconds now a > maxAgeSeconds.
Proof. unfold expired. rewrite andb_true_iff, Z.ltb_lt. split; intros [? ?]; split; auto; lia. Qed.

Section remove_expired.
Variables (now maxAgeSeconds : Z).

(** The erase loop, over any list of distinct entries of the map. *)
Lemma RemoveExpired_loop (l : list (string * Alert)) (m : store) (n : nat) :
  NoDup l.*1 -> (forall kv, kv ∈ l -> m !! kv.1 = Some kv.2) ->
  let r := foldl (RemoveExpired_step now maxAgeSeconds) (m, n) l in
  (r.2 + size r.1 = n + size m)%nat /\
  (forall u, exp_in now maxAgeSeconds l u -> r.1 !! u = None) /\
  (forall u, ~ exp_in now maxAgeSeconds l u -> r.1 !! u = m !! u).
Proof.
  revert m n. induction l as [|[k a] l IH]; intros m n Hnd Hin; simpl.
  - split; [lia|]. split.
    + intros u (kv & Hkv & _). set_solver.
    + reflexivity.
  - apply NoDup_cons in Hnd as [Hk Hnd].
    assert (Hm : m !! k = Some a) by (apply (Hin (k, a)); set_solver).
    assert (Hrest : forall kv, kv ∈ l -> kv.1 <> k).
    { intros kv Hkv Heq. apply Hk. rewrite <- Heq. exact (list_elem_of_fmap_2 fst l kv Hkv). }
    destruct (expired now maxAgeSeconds a) eqn:E.
    + destruct (IH (delete k m) (S n)) as (Hs & Hnone & Hsame); [done| |].
      { intros kv Hkv. rewrite lookup_delete_ne by (apply not_eq_sym, Hrest, Hkv).
        apply Hin. set_solver. }
      split; [|split].
      * rewrite Hs. rewrite map_size_delete, Hm.
        assert (size m <> 0%nat).
        { intros Hz. apply map_size_empty_inv in Hz. subst. by rewrite lookup_empty in Hm. }
        lia.
      * intros u (kv & Hkv & Hu & Ekv). apply elem_of_cons in Hkv as [->|Hkv].
        -- simpl in Hu. subst u. rewrite Hsame; [apply lookup_delete_eq|].
           intros (kv & Hkv & Hu & _). by apply (Hrest kv).
        -- apply Hnone. exists kv. done.
      * intros u Hu. rewrite Hsame.
        -- apply lookup_delete_ne. intros Heq. apply Hu. exists (k, a).
           split; [set_solver|]. done.
        -- intros (kv & Hkv & ?). apply Hu. exists kv. set_solver.
    + destruct (IH m n) as (Hs & Hnone & Hsame); [done| |].
      { intros kv Hkv. apply Hin. set_solver. }
      split; [done|split].
      * intros u (kv & Hkv & Hu & Ekv). apply elem_of_cons in Hkv as [->|Hkv].
        -- simpl in Ekv. congruence.
        -- apply Hnone. exists kv. done.
      * intros u Hu. apply Hsame. intros (kv & Hkv & ?). apply Hu. exists kv. set_solver.
Qed.

Lemma exp_in_map_to_list (m : store) (u : string) :
  exp_in now maxAgeSeconds (map_to_list m) u <->
  exists a, m !! u = Some a /\ expired now maxAgeSeconds a = true.
Proof.
  split.
  - intros ([k a] & Hkv & Hu & E). simpl in *. subst k.
    apply elem_of_map_to_list in Hkv. eauto.
  - intros (a & Hu & E). exists (u, a). split; [|done].
    by apply elem_of_map_to_list.
Qed.

End remove_expired.

(** ** C3 *)
(** Claim C3: [RemoveExpired(T)] erases exactly the stored alerts that are
    acknowledged and whose age is strictly greater than [T] seconds; an
    unacknowledged alert is never erased, whatever its age; and the
    returned count is the number of alerts erased (count plus the size of
    the new store is the size of the old one).  [now] is the clock value
    [GetAgeInSeconds] reads during the scan. *)
Theorem RemoveExpired_exact (now maxAgeSeconds : Z) (m : store) :
  let '(m', removedCount) := RemoveExpired now maxAgeSeconds m in
  (forall u a, m' !! u = Some a <->
     m !! u = Some a /\
     ~ (Alert_IsAcknowledged a = true /\ Alert_GetAgeInSeconds now a > maxAgeSeconds)) /\
  (forall u a, m !! u = Some a -> m' !! u = None ->
     Alert_IsAcknowledged a = true /\ Alert_GetAgeInSeconds now a > maxAgeSeconds) /\
  (forall u a, m !! u = Some a -> Alert_IsAcknowledged a = false -> m' !! u = Some a) /\
  (removedCount + size m' = size m)%nat.
Proof.
  unfold RemoveExpired.
  destruct (RemoveExpired_loop now maxAgeSeconds (map_to_list m) m 0)
    as (Hs & Hnone & Hsame).
  { apply NoDup_fst_map_to_list. }
  { intros kv Hkv. by apply elem_of_map_to_list'. }
  destruct (foldl _ _ _) as [m' n]. simpl in *.
  assert (Hlook : forall u, m' !! u =
            match m !! u with
            | Some a => if expired now maxAgeSeconds a then None else Some a
            | None => None
            end).
  { intros u. destruct (m !! u) as [a|] eqn:Hu.
    - destruct (expired now maxAgeSeconds a) eqn:E.
      + apply Hnone. apply exp_in_map_to_list. eauto.
      + rewrite Hsame, Hu; [done|]. rewrite exp_in_map_to_list.
        intros (a' & Ha' & E'). congruence.
    - rewrite Hsame, Hu; [done|]. rewrite exp_in_map_to_list.
      intros (a' & Ha' & E'). congruence. }
  split; [|split; [|split]].
  - intros u a. rewrite Hlook, <- expired_true_iff.
    destruct (m !! u) as [a0|]; [|split; [discriminate|intros [? _]; discriminate]].
    destruct (expired now maxAgeSeconds a0) eqn:E; split.
    + discriminate.
    + intros [Ha Hn]. injection Ha as ->. congruence.
    + intros Ha. injection Ha as ->. split; [done|congruence].
    + intros [Ha _]. done.
  - intros u a Hu Hn. rewrite Hlook, Hu in Hn. apply expired_true_iff.
    destruct (expired now maxAgeSeconds a); done.
  - intros u a Hu Hack. rewrite Hlook, Hu. unfold expired.
    rewrite Hack. done.
  - lia.
Qed.

(** ** C8 *)
(** Claim C8: acknowledging an alert that is stored already acknowledged
    returns [true] and leaves the whole store unchanged. *)
Theorem Acknowledge_already_acknowledged (u : string) (m : store) (a : Alert) :
  m !! u = Some a -> Alert_IsAcknowledged a = true ->
  Acknowledge u m = (true, m).
Proof.
  intros Hu Hack. unfold Acknowledge. rewrite Hu. f_equal.
  apply insert_id. rewrite Hu. f_equal.
  destruct a; unfold Alert_IsAcknowledged in Hack; simpl in Hack; subst.
  reflexivity.
Qed.

Lemma Acknowledge_already_acknowledged_witness :
  sample_a1 = sample_a1 /\
  Acknowledge "a1" (Save sample_a1 ∅) = (true, Save sample_a1 ∅).
Proof.
  split; [reflexivity|].
  apply (Acknowledge_already_acknowledged "a1" (Save sample_a1 ∅) sample_a1);
    reflexivity.
Defined.

(** ** C10 *)
(** Claim C10: [Acknowledge(uuid)] returns [true] exactly when an alert is
    stored under [uuid]; on [false] the store is unchanged; on [true] every
    other entry is unchanged and the matching alert differs from the old one
    only in its acknowledged flag, which is now [true]. *)
Theorem Acknowledge_result_and_effect (u : string) (m : store) :
  let '(found, m') := Acknowledge u m in
  (found = true <-> is_Some (m !! u)) /\
  (found = false -> m' = m) /\
  (forall k, k <> u -> m' !! k = m !! k) /\
  (forall a, m !! u = Some a ->
     exists a', m' !! u = Some a' /\
       m_isAcknowledged a' = true /\
       m_alertUUID a' = m_alertUUID a /\ m_alertType a' = m_alertType a /\
       m_timestamp a' = m_timestamp a /\ m_relatedEntity a' = m_relatedEntity a /\
       m_messages a' = m_messages a).
Proof.
  unfold Acknowledge. destruct (m !! u) as [a|] eqn:Hu.
  - split; [split; [intros _; eauto|done]|]. split; [discriminate|]. split.
    + intros k Hk. by rewrite lookup_insert_ne by congruence.
    + intros a0 Ha0. injection Ha0 as <-. exists (Alert_Acknowledge a).
      rewrite lookup_insert_eq. repeat split.
  - split; [split; [discriminate|intros [? ?]; discriminate]|].
    split; [done|]. split; [done|]. intros a0 Ha0. discriminate.
Qed.

(** ** C9 *)

Lemma length_GetAllActive (m : store) : length (GetAllActive m) = size m.
Proof. unfold GetAllActive. by rewrite length_fmap, length_map_to_list. Qed.

Lemma elem_of_GetAllActive (m : store) (a : Alert) :
  a ∈ GetAllActive m <-> exists u, m !! u = Some a.
Proof.
  unfold GetAllActive. rewrite list_elem_of_fmap. split.
  - intros ([u a'] & -> & Hin). apply elem_of_map_to_list in Hin. eauto.
  - intros (u & Hu). exists (u, a). split; [done|]. by apply elem_of_map_to_list.
Qed.

Lemma AcknowledgeMultiple_keys (us : list string) (m : store) :
  (forall u, is_Some (snd (AcknowledgeMultiple us m) !! u) <-> is_Some (m !! u)) /\
  size (snd (AcknowledgeMultiple us m)) = size m.
Proof.
  unfold AcknowledgeMultiple. generalize 0%nat as c. revert m.
  induction us as [|v us IH]; intros m c; simpl; [done|].
  destruct (m !! v) as [a|] eqn:Hv.
  - destruct (IH (<[v:=Alert_Acknowledge a]> m) (S c)) as [Hk Hs].
    split.
    + intros u. rewrite Hk, lookup_insert_is_Some'.
      split; [intros [->|?]; eauto|eauto].
    + rewrite Hs, map_size_insert, Hv. done.
  - apply IH.
Qed.

(** Claim C9: [GetAllActive] returns every stored alert whatever its
    acknowledged flag; after [Acknowledge(u)] the acknowledged copy of the
    alert under [u] is in the result; and every operation other than
    [Remove], [RemoveExpired] and [Clear] keeps every stored key and never
    shrinks the result. *)
Theorem GetAllActive_only_erasing_ops_shrink :
  (forall (m : store) (a : Alert),
     a ∈ GetAllActive m <-> exists u, m !! u = Some a) /\
  (forall (m : store) (u : string) (a : Alert), m !! u = Some a ->
     Alert_Acknowledge a ∈ GetAllActive (snd (Acknowledge u m))) /\
  (forall (o : op) (m : store), erasing_op o = false ->
     (forall u, is_Some (m !! u) -> is_Some (run_op o m !! u)) /\
     (length (GetAllActive m) <= length (GetAllActive (run_op o m)))%nat).
Proof.
  split; [apply elem_of_GetAllActive|split].
  - intros m u a Hu. apply elem_of_GetAllActive. exists u.
    unfold Acknowledge. rewrite Hu. simpl. apply lookup_insert_eq.
  - intros o m Ho. rewrite !length_GetAllActive.
    destruct o as [a|u|us|u|now t|]; simpl in Ho; try discriminate; simpl.
    + unfold Save. split.
      * intros u Hu. rewrite lookup_insert_is_Some'. auto.
      * rewrite map_size_insert. destruct (m !! _); simpl; lia.
    + unfold Acknowledge. destruct (m !! u) as [a|] eqn:Hu; simpl; [|done].
      split.
      * intros v Hv. rewrite lookup_insert_is_Some'. auto.
      * rewrite map_size_insert, Hu. done.
    + destruct (AcknowledgeMultiple_keys us m) as [Hk Hs]. split.
      * intros u Hu. by apply Hk.
      * lia.
Qed.

Lemma GetAllActive_only_erasing_ops_shrink_witness :
  erasing_op (OpAcknowledge "a2") = false /\
  (length (GetAllActive (Save sample_a2 ∅)) <=
   length (GetAllActive (run_op (OpAcknowledge "a2") (Save sample_a2 ∅))))%nat.
Proof.
  split; [reflexivity|].
  apply (proj2 (proj2 (proj2 GetAllActive_only_erasing_ops_shrink)
           (OpAcknowledge "a2") (Save sample_a2 ∅) eq_refl)).
Defined.

End AlertRepoFacts.

Module BoardFacts.

Lemma copy_tasks_loop_spec (src : list TaskStatusInfo) (i : nat)
    (tasks : list TaskStatusInfo) (count : Z) :
  (i <= MAX_TASKS_PER_BOARD)%nat -> length tasks = MAX_TASKS_PER_BOARD ->
  let n := Nat.min (length src) (MAX_TASKS_PER_BOARD - i) in
  let r := copy_tasks_loop i src tasks count in
  length r.1 = MAX_TASKS_PER_BOARD /\
  r.2 = count + Z.of_nat n /\
  (forall k, r.1 !! k = if decide (i <= k < i + n)%nat then src !! (k - i)%nat
                        else tasks !! k).
Proof.
  unfold MAX_TASKS_PER_BOARD.
  revert i tasks count. induction src as [|t src IH]; intros i tasks count Hi Hlen; cbn [copy_tasks_loop length fst snd].
  - split; [done|]. split; [lia|]. intros k.
    destruct (decide _); [lia|done].
  - destruct (Nat.ltb_spec i MAX_TASKS_PER_BOARD) as [Hlt|Hge]; unfold MAX_TASKS_PER_BOARD in *.
    + destruct (IH (S i) (<[i:=t]> tasks) (count + 1)) as (Hl & Hc & Hk);
        [lia|by rewrite length_insert|].
      split; [done|]. split; [rewrite Hc; lia|].
      intros k. rewrite Hk.
      destruct (decide (S i <= k < S i + Nat.min (length src) (8 - S i))%nat) as [H1|H1];
      destruct (decide (i <= k < i + Nat.min (S (length src)) (8 - i))%nat) as [H2|H2];
        try lia.
      * replace (k - i)%nat with (S (k - S i)) by lia. done.
      * destruct (decide (k = i)) as [->|Hne].
        -- rewrite list_lookup_insert_eq by lia.
           replace (i - i)%nat with 0%nat by lia. done.
        -- rewrite list_lookup_insert_ne by lia. lia.
      * rewrite list_lookup_insert_ne by lia. done.
    + cbn [fst snd]. split; [done|]. split; [lia|]. intros k.
      destruct (decide _); [lia|done].
Qed.

Lemma zero_tasks_loop_spec (fuel i : nat) (tasks : list TaskStatusInfo) :
  (i + fuel <= length tasks)%nat ->
  length (zero_tasks_loop i fuel tasks) = length tasks /\
  (forall k, zero_tasks_loop i fuel tasks !! k =
     if decide (i <= k < i + fuel)%nat then Some TaskStatusInfo_zero else tasks !! k).
Proof.
  revert i tasks. induction fuel as [|fuel IH]; intros i tasks Hle; simpl.
  - split; [done|]. intros k. destruct (decide _); [lia|done].
  - destruct (IH (S i) (<[i:=TaskStatusInfo_zero]> tasks)) as [Hl Hk];
      [rewrite length_insert; lia|].
    rewrite length_insert in Hl. split; [done|].
    intros k. rewrite Hk.
    destruct (decide (S i <= k < S i + fuel)%nat);
    destruct (decide (i <= k < i + S fuel)%nat); try lia; [done| |].
    + assert (k = i) as -> by lia. by rewrite list_lookup_insert_eq by lia.
    + by rewrite list_lookup_insert_ne by lia.
Qed.

(** [UpdateFromApiData] on a board that can run tasks. *)
Lemma UpdateFromApiData_computing (b : Board) (s : Z) (ts : list TaskStatusInfo) :
  Board_CanRunTasks b = true -> length (m_tasks b) = MAX_TASKS_PER_BOARD ->
  let b' := Board_UpdateFromApiData b s ts in
  let n := Nat.min (length ts) MAX_TASKS_PER_BOARD in
  m_status b' = (if Z.eqb s 0 then BOS_Normal else BOS_Abnormal) /\
  m_taskCount b' = Z.of_nat n /\
  length (m_tasks b') = MAX_TASKS_PER_BOARD /\
  (forall k, (k < MAX_TASKS_PER_BOARD)%nat ->
     m_tasks b' !! k = if decide (k < n)%nat then ts !! k else Some TaskStatusInfo_zero).
Proof.
  intros Hc Hlen. unfold Board_UpdateFromApiData. rewrite Hc. cbn [negb].
  destruct (copy_tasks_loop_spec ts 0 (m_tasks b) 0) as (Hl & Hcnt & Hk);
    [unfold MAX_TASKS_PER_BOARD; lia|done|].
  destruct (copy_tasks_loop 0 ts (m_tasks b) 0) as [tasks1 count] eqn:E.
  cbn [fst snd] in *.
  set (n := Nat.min (length ts) MAX_TASKS_PER_BOARD) in *.
  assert (Hn8 : (n <= MAX_TASKS_PER_BOARD)%nat) by (unfold n; lia).
  replace (MAX_TASKS_PER_BOARD - 0)%nat with MAX_TASKS_PER_BOARD in * by reflexivity.
  assert (Hn : count = Z.of_nat n) by (rewrite Hcnt; unfold n; lia).
  clear Hcnt. subst count. unfold zero_tasks_from. rewrite Nat2Z.id.
  cbn [Board_with m_status m_taskCount m_tasks].
  destruct (zero_tasks_loop_spec (MAX_TASKS_PER_BOARD - n) n tasks1) as [Hl2 Hk2];
    [lia|].
  split; [done|]. split; [done|]. split; [congruence|].
  intros k Hk8. rewrite Hk2, Hk.
  destruct (decide (n <= k < n + (MAX_TASKS_PER_BOARD - n))%nat);
  destruct (decide (k < n)%nat); try lia; [done|].
  rewrite decide_True by (unfold n, MAX_TASKS_PER_BOARD in *; lia). by rewrite Nat.sub_0_r.
Qed.

Lemma UpdateFromApiData_not_computing (b : Board) (s : Z) (ts : list TaskStatusInfo) :
  Board_CanRunTasks b = false ->
  let b' := Board_UpdateFromApiData b s ts in
  m_status b' = (if Z.eqb s 0 then BOS_Normal else BOS_Abnormal) /\
  m_taskCount b' = 0 /\ m_tasks b' = m_tasks b.
Proof. intros Hc. unfold Board_UpdateFromApiData. rewrite Hc. done. Qed.

Lemma MarkAsOffline_spec (b : Board) :
  length (m_tasks b) = MAX_TASKS_PER_BOARD ->
  let b' := Board_MarkAsOffline b in
  m_status b' = BOS_Offline /\ m_taskCount b' = 0 /\
  length (m_tasks b') = MAX_TASKS_PER_BOARD /\
  (forall k, (k < MAX_TASKS_PER_BOARD)%nat -> m_tasks b' !! k = Some TaskStatusInfo_zero).
Proof.
  intros Hlen. unfold Board_MarkAsOffline, Board_with. cbn [m_status m_taskCount m_tasks].
  destruct (zero_tasks_loop_spec MAX_TASKS_PER_BOARD 0 (m_tasks b)) as [Hl Hk]; [lia|].
  split; [done|]. split; [done|]. split; [congruence|].
  intros k Hk8. rewrite Hk. destruct (decide _); [done|lia].
Qed.

End BoardFacts.

Module ChassisRepoFacts.
Import ChassisRepo.

Lemma active_SaveAll (x : list Chassis) (st : state) : active (SaveAll x st) = x.
Proof. destruct st as [A B act back]; destruct back, act; reflexivity. Qed.

(** ** C2 *)
(** Claim C2: committing the same snapshot twice with [SaveAll] is
    observationally the same as committing it once: every reader of the
    store gives the same answer after both sequences. *)
Theorem SaveAll_twice_same_as_once (x : list Chassis) (st : state) :
  let once := SaveAll x st in
  let twice := SaveAll x (SaveAll x st) in
  GetAll twice = GetAll once /\
  (forall n, FindByNumber n twice = FindByNumber n once) /\
  (forall addr, FindByBoardAddress addr twice = FindByBoardAddress addr once) /\
  CountTotalBoards twice = CountTotalBoards once /\
  CountNormalBoards twice = CountNormalBoards once /\
  CountAbnormalBoards twice = CountAbnormalBoards once /\
  CountOfflineBoards twice = CountOfflineBoards once /\
  CountTotalTasks twice = CountTotalTasks once.
Proof.
  cbv zeta.
  assert (H : active (SaveAll x (SaveAll x st)) = active (SaveAll x st))
    by (rewrite !active_SaveAll; reflexivity).
  unfold GetAll, FindByNumber, FindByBoardAddress, CountTotalBoards,
    CountNormalBoards, CountAbnormalBoards, CountOfflineBoards, CountTotalTasks,
    sum_initialised.
  rewrite H. repeat split.
Qed.

End ChassisRepoFacts.

Module CollectorFacts.
Import BoardFacts.

Example collect_sample :
  ChassisRepo.GetAll (CollectBoardInfo (Some [sample_board_info]) sample_repo) !! 0%nat
  ≫= (fun c => m_boards c !! 0%nat) = Some
    (mkBoard "192.168.1.101" 1 BoardType_Computing BOS_Normal 1
       (mkTaskStatusInfo "t1" "running" "svc" "svc-1" "stk" "stk-1"
        :: replicate 7 TaskStatusInfo_zero)).
Proof. vm_compute. reflexivity. Qed.

Lemma UpdateFromApiData_ids (b : Board) (st : Z) (ts : list TaskStatusInfo) :
  let b' := Board_UpdateFromApiData b st ts in
  m_boardAddress b' = m_boardAddress b /\ m_boardNumber b' = m_boardNumber b /\
  m_boardType b' = m_boardType b.
Proof.
  unfold Board_UpdateFromApiData. destruct (negb (Board_CanRunTasks b)).
  - done.
  - destruct (copy_tasks_loop 0 ts (m_tasks b) 0). done.
Qed.

(** ** C1 *)
(** Claim C1 (as amended): after a board sync with a successful backend
    response, the committed snapshot has, at every chassis position [p] and
    slot [j], the old chassis with the same number, and:
    - in a chassis numbered 0 (uninitialised) the board is left as it was;
    - otherwise, if the board's address is reported (the first entry with
      that address is used), its status becomes Normal for reported status
      0 and Abnormal otherwise; a Computing board gets task count
      [min(n, 8)] for the [n] reported tasks, slot [k] holding the [k]-th
      reported task below that count and a zeroed task above it; any other
      board gets task count 0 and keeps its task slots;
    - if the address is not reported, the board is Offline with task count
      0 and all 8 slots zeroed.
    Address, slot number and type never change.  The hypothesis is the
    [std::array<TaskStatusInfo, 8>] shape of the task slots. *)
Theorem CollectBoardInfo_board_sync (boardInfos : list BoardInfoData)
    (repo : ChassisRepo.state) (p j : nat) (c : Chassis) (b : Board) :
  ChassisRepo.GetAll repo !! p = Some c -> m_boards c !! j = Some b ->
  length (m_tasks b) = MAX_TASKS_PER_BOARD ->
  exists c' b',
    ChassisRepo.GetAll (CollectBoardInfo (Some boardInfos) repo) !! p = Some c' /\
    m_boards c' !! j = Some b' /\
    m_chassisNumber c' = m_chassisNumber c /\
    m_boardAddress b' = m_boardAddress b /\ m_boardNumber b' = m_boardNumber b /\
    m_boardType b' = m_boardType b /\
    (m_chassisNumber c = 0 -> b' = b) /\
    (m_chassisNumber c <> 0 ->
     match find_board_info boardInfos (m_boardAddress b) with
     | Some bi =>
         m_status b' = (if Z.eqb (bi_boardStatus bi) 0 then BOS_Normal else BOS_Abnormal) /\
         (m_boardType b = BoardType_Computing ->
            let ts := ConvertTasks (bi_taskInfos bi) in
            let n := Nat.min (length ts) MAX_TASKS_PER_BOARD in
            m_taskCount b' = Z.of_nat n /\
            length (m_tasks b') = MAX_TASKS_PER_BOARD /\
            (forall k, (k < MAX_TASKS_PER_BOARD)%nat ->
               m_tasks b' !! k = if decide (k < n)%nat then ts !! k
                                 else Some TaskStatusInfo_zero)) /\
         (m_boardType b <> BoardType_Computing ->
            m_taskCount b' = 0 /\ m_tasks b' = m_tasks b)
     | None =>
         m_status b' = BOS_Offline /\ m_taskCount b' = 0 /\
         length (m_tasks b') = MAX_TASKS_PER_BOARD /\
         (forall k, (k < MAX_TASKS_PER_BOARD)%nat ->
            m_tasks b' !! k = Some TaskStatusInfo_zero)
     end).
Proof.
  intros Hc Hb Hlen.
  unfold CollectBoardInfo. unfold ChassisRepo.GetAll at 1.
  rewrite ChassisRepoFacts.active_SaveAll, list_lookup_fmap, Hc. simpl.
  exists (collect_chassis boardInfos c).
  unfold collect_chassis. destruct (Z.eqb_spec (m_chassisNumber c) 0) as [H0|H0].
  - exists b. repeat split; try done; intros; congruence.
  - cbn [m_boards m_chassisNumber]. rewrite list_lookup_fmap, Hb. simpl.
    exists (collect_board boardInfos b).
    unfold collect_board.
    destruct (find_board_info boardInfos (m_boardAddress b)) as [bi|] eqn:Hf.
    + destruct (UpdateFromApiData_ids b (bi_boardStatus bi)
                  (ConvertTasks (bi_taskInfos bi))) as (Ha & Hnum & Hty).
      split; [done|]. split; [done|]. split; [done|].
      split; [done|]. split; [done|]. split; [done|].
      split; [intros; congruence|]. intros _.
      destruct (m_boardType b) eqn:Ht.
      * destruct (UpdateFromApiData_computing b (bi_boardStatus bi)
                    (ConvertTasks (bi_taskInfos bi))) as (Hs & Hn & Hl & Hk);
          [unfold Board_CanRunTasks; by rewrite Ht|done|].
        split; [done|]. split; [intros _; done|]. intros Hne. congruence.
      * destruct (UpdateFromApiData_not_computing b (bi_boardStatus bi)
                    (ConvertTasks (bi_taskInfos bi))) as (Hs & Hn & Hl);
          [unfold Board_CanRunTasks; by rewrite Ht|].
        split; [done|]. split; [intros; discriminate|]. intros _. done.
      * destruct (UpdateFromApiData_not_computing b (bi_boardStatus bi)
                    (ConvertTasks (bi_taskInfos bi))) as (Hs & Hn & Hl);
          [unfold Board_CanRunTasks; by rewrite Ht|].
        split; [done|]. split; [intros; discriminate|]. intros _. done.
    + destruct (MarkAsOffline_spec b Hlen) as (Hs & Hn & Hl & Hk).
      split; [done|]. split; [done|]. split; [done|].
      split; [done|]. split; [done|]. split; [done|].
      split; [intros; congruence|]. intros _. done.
Qed.

Lemma CollectBoardInfo_board_sync_witness :
  exists c' b',
    ChassisRepo.GetAll (CollectBoardInfo (Some [sample_board_info]) sample_repo) !! 0%nat
      = Some c' /\ m_boards c' !! 0%nat = Some b'.
Proof.
  destruct (CollectBoardInfo_board_sync [sample_board_info] sample_repo 0 0
              sample_chassis sample_board eq_refl eq_refl eq_refl)
    as (c' & b' & H1 & H2 & _).
  exists c', b'. split; [exact H1|exact H2].
Defined.

(** Claim C1 as stated fails: the freshly constructed store holds nine
    chassis numbered 0; a sync whose response reports no board leaves their
    boards in status Unknown instead of marking them Offline. *)
Lemma CollectBoardInfo_skips_chassis_number_0 :
  find_board_info [] (m_boardAddress Board_default) = None /\
  ChassisRepo.GetAll (CollectBoardInfo (Some []) ChassisRepo.new) !! 0%nat
    ≫= (fun c => m_boards c !! 0%nat) = Some Board_default /\
  m_status Board_default = BOS_Unknown.
Proof. split; [reflexivity|]. split; [vm_compute; reflexivity|reflexivity]. Qed.

End CollectorFacts.

Module StackRepoFacts.
Import StackDomain StackRepo.

(** ** C5 *)
(** Claim C5 (as amended): [SaveAll ps] merges into the store; looking up a
    uuid [u] afterwards gives the LAST pipeline of [ps] whose uuid is [u],
    and the previous entry when no pipeline of [ps] has uuid [u]; in
    particular entries whose uuid does not occur in [ps] are unchanged. *)
Theorem SaveAll_merge_last_wins (ps : list Stack) (m : store) :
  (forall u, SaveAll ps m !! u =
     match last (filter (fun s => m_stackUUID s = u) ps) with
     | Some s => Some s
     | None => m !! u
     end) /\
  (forall u, u ∉ m_stackUUID <$> ps -> SaveAll ps m !! u = m !! u).
Proof.
  assert (Hl : forall u, SaveAll ps m !! u =
     match last (filter (fun s => m_stackUUID s = u) ps) with
     | Some s => Some s | None => m !! u end).
  { intros u. revert m. induction ps as [|s ps IH]; intros m; [reflexivity|].
    change (SaveAll (s :: ps) m) with (SaveAll ps (<[m_stackUUID s := s]> m)).
    rewrite IH, filter_cons.
    destruct (decide (m_stackUUID s = u)) as [Heq|Hne].
    - rewrite last_cons. destruct (last (filter _ ps)); [reflexivity|].
      subst u. by rewrite lookup_insert_eq.
    - destruct (last (filter _ ps)); [reflexivity|].
      by rewrite lookup_insert_ne. }
  split; [exact Hl|].
  intros u Hu. rewrite Hl.
  destruct (last (filter (fun s => m_stackUUID s = u) ps)) as [s|] eqn:Hs; [|reflexivity].
  exfalso. apply Hu.
  assert (Hin : s ∈ filter (fun s => m_stackUUID s = u) ps).
  { apply list_elem_of_In. apply last_Some_elem_of in Hs.
    by apply list_elem_of_In. }
  apply list_elem_of_filter in Hin as [Hu' Hin].
  rewrite <- Hu'. by apply list_elem_of_fmap_2.
Qed.

(** Claim C5 as stated fails: when a batch holds two pipelines with the
    same uuid, the first one is not in the store afterwards. *)
Lemma SaveAll_duplicate_uuid_drops_first :
  let p1 := Stack_new "s-1" "first" in
  let p2 := Stack_new "s-1" "second" in
  p1 ∈ [p1; p2] /\ SaveAll [p1; p2] ∅ !! m_stackUUID p1 = Some p2 /\ p1 <> p2.
Proof.
  cbv zeta. split; [left|]. split; [reflexivity|].
  intros H. injection H. discriminate.
Qed.

End StackRepoFacts.

Module StackStatusFacts.
Import StackDomain.

Lemma AddLabels_runningStatus (ls : list LabelInfoData) (s : Stack) :
  m_runningStatus (foldl (fun s li => snd (Stack_AddLabel s
      (mkStackLabelInfo (strncpy_field 128 (li_labelName li))
                        (strncpy_field 64 (li_labelUUID li))))) s ls) = m_runningStatus s.
Proof.
  revert s. induction ls as [|li ls IH]; intros s; [reflexivity|].
  cbn [foldl]. rewrite IH. unfold Stack_AddLabel.
  by destruct (Z.leb _ _).
Qed.

Lemma AddServices_runningStatus (svs : list ServiceInfoData) (s : Stack) :
  m_runningStatus (foldl (fun s svi => Stack_AddOrUpdateService s (ConvertService svi)) s svs)
  = m_runningStatus s.
Proof.
  revert s. induction svs as [|svi svs IH]; intros s; [reflexivity|].
  cbn [foldl]. by rewrite IH.
Qed.

Lemma ConvertToStack_runningStatus (si : StackInfoData) :
  m_runningStatus (ConvertToStack si) = si_stackRunningStatus si.
Proof.
  unfold ConvertToStack. by rewrite AddServices_runningStatus, AddLabels_runningStatus.
Qed.

Lemma existsb_abnormal_iff (s : Stack) :
  existsb (fun kv => Service_IsAbnormal kv.2) (map_to_list (m_services s)) = true <->
  exists u sv, m_services s !! u = Some sv /\ m_status sv = ServiceStatus_Abnormal.
Proof.
  rewrite existsb_exists. split.
  - intros ([u sv] & Hin & Hab). apply list_elem_of_In, elem_of_map_to_list in Hin.
    exists u, sv. split; [done|]. by apply Z.eqb_eq.
  - intros (u & sv & Hl & Hab). exists (u, sv). split.
    + by apply list_elem_of_In, elem_of_map_to_list.
    + by apply Z.eqb_eq.
Qed.

(** ** C6 *)
(** Claim C6 (as amended): the rule "Abnormal iff some owned service is
    Abnormal, Normal otherwise (also with no service)" is what
    [RecalculateRunningStatus] establishes, and it leaves the services
    alone; a pipeline built by the collector's [ConvertToStack] instead
    carries the backend's [stackRunningStatus] value unchanged, whatever its
    services are. *)
Theorem running_status_rule (s : Stack) (si : StackInfoData) :
  m_runningStatus (ConvertToStack si) = si_stackRunningStatus si /\
  m_services (Stack_RecalculateRunningStatus s) = m_services s /\
  (m_runningStatus (Stack_RecalculateRunningStatus s) = StackRunningStatus_Abnormal <->
   exists u sv, m_services s !! u = Some sv /\ m_status sv = ServiceStatus_Abnormal) /\
  (m_runningStatus (Stack_RecalculateRunningStatus s) = StackRunningStatus_Normal <->
   ~ exists u sv, m_services s !! u = Some sv /\ m_status sv = ServiceStatus_Abnormal).
Proof.
  split; [apply ConvertToStack_runningStatus|].
  rewrite <- existsb_abnormal_iff.
  unfold Stack_RecalculateRunningStatus.
  destruct (Nat.eqb_spec (size (m_services s)) 0) as [H0|H0].
  - apply map_size_empty_inv in H0.
    assert (Hf : existsb (fun kv => Service_IsAbnormal kv.2)
                   (map_to_list (m_services s)) = false)
      by (rewrite H0, map_to_list_empty; reflexivity).
    rewrite Hf. cbn. unfold StackRunningStatus_Normal, StackRunningStatus_Abnormal.
    repeat split; try discriminate; intros; congruence.
  - destruct (existsb _ _); cbn;
      unfold StackRunningStatus_Normal, StackRunningStatus_Abnormal;
      repeat split; try discriminate; try congruence; try tauto.
Qed.

(** Claim C6 as stated fails: the collector stores a pipeline with no
    service whose running status is Abnormal, because the backend said so. *)
Lemma collected_stack_abnormal_without_services :
  exists s, CollectStackInfo (Some [mkStackInfoData "p" "s-1" 1 2 [] []]) ∅ !! "s-1" = Some s /\
    m_services s = ∅ /\ m_runningStatus s = StackRunningStatus_Abnormal.
Proof. eexists. split; [reflexivity|]. split; reflexivity. Qed.

End StackStatusFacts.

Module StackControlFacts.
Import StackControl.

Example deploy_calls_backend_once :
  HandleDeployStack sample_api "label-1" [] =
    ((CommandResult_Success, "Deploy命令执行完成"), [Api_Deploy ["label-1"]]).
Proof. reflexivity. Qed.

(** ** C7 *)
(** Claim C7 (as amended): a deploy or undeploy request with an empty label
    list returns at once the generic failure response of the service
    ([success = false], error code -1, message "标签列表不能为空", empty
    result) without calling the backend client (the call log is unchanged);
    a reply built by the UDP listener from such a response carries result
    [Failed] (1). *)
Theorem empty_labels_fail_without_backend_call (api : QywApiClient)
    (command : DeployCommandDTO) (log : list ApiCall) :
  stackLabels command = [] ->
  DeployByLabels api command log =
    (ResponseDTO_Failure DeployResultDTO_zero msg_empty_labels (-1), log) /\
  UndeployByLabels api command log =
    (ResponseDTO_Failure DeployResultDTO_zero msg_empty_labels (-1), log) /\
  command_result (fst (DeployByLabels api command log)) = CommandResult_Failed /\
  command_result (fst (UndeployByLabels api command log)) = CommandResult_Failed.
Proof.
  intros Hnil. unfold DeployByLabels, UndeployByLabels. rewrite Hnil.
  repeat split.
Qed.

Lemma empty_labels_fail_without_backend_call_witness :
  stackLabels (mkDeployCommandDTO []) = [] /\
  DeployByLabels sample_api (mkDeployCommandDTO []) [] =
    (ResponseDTO_Failure DeployResultDTO_zero msg_empty_labels (-1), []).
Proof.
  split; [reflexivity|].
  apply (empty_labels_fail_without_backend_call sample_api (mkDeployCommandDTO []) []).
  reflexivity.
Defined.

(** Claim C7 as stated fails: the empty-label failure is not
    [InvalidParameter]: the response has the default error code -1 and the
    listener's rule turns it into [Failed]. *)
Lemma empty_labels_result_is_Failed :
  let r := DeployByLabels sample_api (mkDeployCommandDTO []) [] in
  snd r = [] /\ errorCode (fst r) = -1 /\
  command_result (fst r) = CommandResult_Failed /\
  command_result (fst r) <> CommandResult_InvalidParameter /\
  CommandResult_value (command_result (fst r)) = 1.
Proof. cbv zeta. repeat split; discriminate. Qed.

End StackControlFacts.

Module BroadcastFacts.

Lemma task_code_range (st : string) : task_code st = 0 \/ task_code st = 1 \/ task_code st = 2.
Proof.
  unfold task_code.
  destruct (String.eqb st "" || String.eqb st "unknown"); [by left|].
  destruct (String.eqb st "normal" || String.eqb st "running"); [by right; left|by right; right].
Qed.

Lemma fill_tasks_spec (sts : list string) (i : nat) (row : list Z) :
  length row = 8%nat ->
  length (fill_tasks i sts row) = 8%nat /\
  (forall k, fill_tasks i sts row !! k =
     if decide (i <= k < i + length sts /\ k < 8)%nat then task_code <$> sts !! (k - i)%nat
     else row !! k).
Proof.
  revert i row. induction sts as [|st sts IH]; intros i row Hlen.
  - split; [done|]. intros k. cbn [fill_tasks length].
    rewrite decide_False by lia. reflexivity.
  - cbn [fill_tasks length]. destruct (Nat.ltb_spec i 8) as [Hi|Hi].
    + assert (Hlen' : length (<[i := task_code st]> row) = 8%nat)
        by (rewrite length_insert; done).
      destruct (IH (S i) _ Hlen') as [IHl IHk].
      split; [done|]. intros k. rewrite IHk.
      destruct (decide (i = k)) as [->|Hne].
      * rewrite decide_False by lia. rewrite decide_True by lia.
        rewrite Nat.sub_diag. cbn. by rewrite list_lookup_insert_eq by lia.
      * destruct (decide (S i <= k < S i + length sts /\ k < 8)%nat) as [Hin|Hout].
        -- rewrite decide_True by lia.
           replace (k - i)%nat with (S (k - S i)) by lia. reflexivity.
        -- rewrite decide_False by lia. by rewrite list_lookup_insert_ne.
    + split; [done|]. intros k. rewrite decide_False by lia. reflexivity.
Qed.

Lemma fill_tasks_range (sts : list string) (i : nat) (row : list Z) :
  Forall (fun v => v = 0 \/ v = 1 \/ v = 2) row ->
  Forall (fun v => v = 0 \/ v = 1 \/ v = 2) (fill_tasks i sts row).
Proof.
  revert i row. induction sts as [|st sts IH]; intros i row H; cbn [fill_tasks]; [done|].
  destruct (Nat.ltb i 8); [|done].
  apply IH, Forall_insert; [done|apply task_code_range].
Qed.

Lemma fill_boards_spec (bds : list BoardDTO) (i : nat) (bs : list Z) (ts : list (list Z)) :
  length bs = 12%nat -> length ts = 12%nat -> Forall (fun r => length r = 8%nat) ts ->
  let r := fill_boards i bds bs ts in
  length r.1 = 12%nat /\ length r.2 = 12%nat /\ Forall (fun r => length r = 8%nat) r.2 /\
  (forall j, (i <= j < i + length bds /\ j < 12)%nat ->
     exists bd, bds !! (j - i)%nat = Some bd /\
       r.1 !! j = Some (if Z.eqb (bd_boardStatus bd) 0 then 1 else 0) /\
       r.2 !! j = fill_tasks 0 (bd_taskStatuses bd) <$> ts !! j) /\
  (forall j, ~ (i <= j < i + length bds /\ j < 12)%nat -> r.1 !! j = bs !! j /\ r.2 !! j = ts !! j).
Proof.
  revert i bs ts. induction bds as [|bd bds IH]; intros i bs ts Hbs Hts Hrows.
  - cbn. split; [done|]. split; [done|]. split; [done|].
    split; [intros j Hj; lia|done].
  - cbn [fill_boards length]. destruct (Nat.ltb_spec i 12) as [Hi|Hi].
    + set (bs' := <[i := if Z.eqb (bd_boardStatus bd) 0 then 1 else 0]> bs).
      set (ts' := alter (fill_tasks 0 (bd_taskStatuses bd)) i ts).
      assert (Hbs' : length bs' = 12%nat) by (unfold bs'; by rewrite length_insert).
      assert (Hts' : length ts' = 12%nat) by (unfold ts'; by rewrite length_alter).
      assert (Hrows' : Forall (fun r => length r = 8%nat) ts').
      { unfold ts'. apply Forall_alter; [done|]. intros x _ Hx.
        by destruct (fill_tasks_spec (bd_taskStatuses bd) 0 x Hx). }
      destruct (IH (S i) bs' ts' Hbs' Hts' Hrows') as (H1 & H2 & H3 & Hin & Hout).
      split; [done|]. split; [done|]. split; [done|]. split.
      * intros j Hj. destruct (decide (i = j)) as [<-|Hne].
        -- exists bd. rewrite Nat.sub_diag. split; [done|].
           destruct (Hout i) as [Ho1 Ho2]; [lia|]. rewrite Ho1, Ho2.
           unfold bs', ts'. split.
           ++ by rewrite list_lookup_insert_eq by lia.
           ++ by rewrite list_lookup_alter, decide_True.
        -- destruct (Hin j) as (bd' & Hbd & Hj1 & Hj2); [lia|].
           exists bd'. split.
           ++ replace (j - i)%nat with (S (j - S i)) by lia. exact Hbd.
           ++ split; [exact Hj1|]. rewrite Hj2. unfold ts'.
              by rewrite list_lookup_alter_ne.
      * intros j Hj. destruct (Hout j) as [Ho1 Ho2]; [lia|].
        rewrite Ho1, Ho2. unfold bs', ts'.
        rewrite list_lookup_insert_ne by lia. by rewrite list_lookup_alter_ne by lia.
    + cbn. split; [done|]. split; [done|]. split; [done|].
      split; [intros j Hj; lia|done].
Qed.

Lemma fill_boards_range (bds : list BoardDTO) (i : nat) (bs : list Z) (ts : list (list Z)) :
  Forall (fun v => v = 0 \/ v = 1) bs ->
  Forall (Forall (fun v => v = 0 \/ v = 1 \/ v = 2)) ts ->
  Forall (fun v => v = 0 \/ v = 1) (fill_boards i bds bs ts).1 /\
  Forall (Forall (fun v => v = 0 \/ v = 1 \/ v = 2)) (fill_boards i bds bs ts).2.
Proof.
  revert i bs ts. induction bds as [|bd bds IH]; intros i bs ts Hbs Hts;
    cbn [fill_boards]; [done|].
  destruct (Nat.ltb i 12); [|done].
  apply IH.
  - apply Forall_insert; [done|]. destruct (Z.eqb _ 0); [by right|by left].
  - apply Forall_alter; [done|]. intros x _ Hx. by apply fill_tasks_range.
Qed.

Lemma fill_chassis_fixed (pkt : ResourceMonitorResponsePacket) (d : ChassisDTO) :
  rm_header (fill_chassis pkt d) = rm_header pkt /\
  rm_commandCode (fill_chassis pkt d) = rm_commandCode pkt /\
  rm_responseID (fill_chassis pkt d) = rm_responseID pkt.
Proof.
  unfold fill_chassis. repeat case_match; done.
Qed.

Lemma fill_chassis_shape (pkt : ResourceMonitorResponsePacket) (d : ChassisDTO) :
  RMPacket_shape pkt -> RMPacket_shape (fill_chassis pkt d).
Proof.
  intros (Hh & Hbl & Hbr & Htl & Htr). unfold fill_chassis. cbv zeta.
  set (idx := Z.to_nat (cd_chassisNumber d - 1)).
  destruct (_ || _); [by repeat split|].
  destruct (rm_boardStates pkt !! idx) as [bs|] eqn:Hbs; [|by repeat split].
  destruct (rm_taskStates pkt !! idx) as [ts|] eqn:Hts; [|by repeat split].
  pose proof (Forall_lookup_1 _ _ _ _ Hbr Hbs) as Hbs12.
  destruct (Forall_lookup_1 _ _ _ _ Htr Hts) as [Hts12 Hrows].
  destruct (fill_boards_spec (cd_boards d) 0 bs ts Hbs12 Hts12 Hrows)
    as (H1 & H2 & H3 & _).
  destruct (fill_boards 0 (cd_boards d) bs ts) as [bs' ts'] eqn:Hf.
  unfold RMPacket_shape. cbn [rm_header rm_boardStates rm_taskStates fst snd] in *.
  split; [done|]. split; [by rewrite length_insert|].
  split; [by apply Forall_insert|]. split; [by rewrite length_insert|].
  by apply Forall_insert.
Qed.

Lemma fill_chassis_range (pkt : ResourceMonitorResponsePacket) (d : ChassisDTO) :
  Forall (Forall (fun v => v = 0 \/ v = 1)) (rm_boardStates pkt) ->
  Forall (Forall (Forall (fun v => v = 0 \/ v = 1 \/ v = 2))) (rm_taskStates pkt) ->
  Forall (Forall (fun v => v = 0 \/ v = 1)) (rm_boardStates (fill_chassis pkt d)) /\
  Forall (Forall (Forall (fun v => v = 0 \/ v = 1 \/ v = 2))) (rm_taskStates (fill_chassis pkt d)).
Proof.
  intros Hb Ht. unfold fill_chassis. cbv zeta.
  set (idx := Z.to_nat (cd_chassisNumber d - 1)).
  destruct (_ || _); [done|].
  destruct (rm_boardStates pkt !! idx) as [bs|] eqn:Hbs; [|done].
  destruct (rm_taskStates pkt !! idx) as [ts|] eqn:Hts; [|done].
  destruct (fill_boards_range (cd_boards d) 0 bs ts
              (Forall_lookup_1 _ _ _ _ Hb Hbs) (Forall_lookup_1 _ _ _ _ Ht Hts)) as [R1 R2].
  destruct (fill_boards 0 (cd_boards d) bs ts) as [bs' ts'].
  cbn [rm_boardStates rm_taskStates fst snd] in *.
  split; by apply Forall_insert.
Qed.

(** A chassis with another number does not touch row [i]. *)
Lemma fill_chassis_other_row (pkt : ResourceMonitorResponsePacket) (d : ChassisDTO) (i : nat) :
  cd_chassisNumber d <> Z.of_nat i + 1 ->
  rm_boardStates (fill_chassis pkt d) !! i = rm_boardStates pkt !! i /\
  rm_taskStates (fill_chassis pkt d) !! i = rm_taskStates pkt !! i.
Proof.
  intros Hne. unfold fill_chassis.
  destruct (Z.ltb_spec (cd_chassisNumber d - 1) 0) as [Hlt|Hge]; [done|].
  destruct (Z.leb_spec 9 (cd_chassisNumber d - 1)) as [H9|H9]; [done|]. cbn.
  repeat case_match; try done. cbn.
  rewrite !list_lookup_insert_ne by lia. done.
Qed.

(** The chassis numbered [i + 1] fills row [i] from the row it finds. *)
Lemma fill_chassis_this_row (pkt : ResourceMonitorResponsePacket) (d : ChassisDTO) (i : nat)
    (bs : list Z) (ts : list (list Z)) :
  cd_chassisNumber d = Z.of_nat i + 1 -> (i < 9)%nat ->
  rm_boardStates pkt !! i = Some bs -> rm_taskStates pkt !! i = Some ts ->
  rm_boardStates (fill_chassis pkt d) !! i = Some (fill_boards 0 (cd_boards d) bs ts).1 /\
  rm_taskStates (fill_chassis pkt d) !! i = Some (fill_boards 0 (cd_boards d) bs ts).2.
Proof.
  intros Hn Hi Hbs Hts. unfold fill_chassis. rewrite Hn.
  rewrite (proj2 (Z.ltb_ge _ _)) by lia. rewrite (proj2 (Z.leb_gt _ _)) by lia. cbn.
  replace (Z.to_nat (Z.of_nat i + 1 - 1)) with i by lia.
  rewrite Hbs, Hts.
  apply lookup_lt_Some in Hbs. apply lookup_lt_Some in Hts.
  destruct (fill_boards 0 (cd_boards d) bs ts). cbn.
  by rewrite !list_lookup_insert_eq.
Qed.

Lemma foldl_fill_other_rows (L : list ChassisDTO) (pkt : ResourceMonitorResponsePacket) (i : nat) :
  Forall (fun d => cd_chassisNumber d <> Z.of_nat i + 1) L ->
  rm_boardStates (foldl fill_chassis pkt L) !! i = rm_boardStates pkt !! i /\
  rm_taskStates (foldl fill_chassis pkt L) !! i = rm_taskStates pkt !! i.
Proof.
  revert pkt. induction L as [|d L IH]; intros pkt HL; [done|].
  apply Forall_cons in HL as [Hd HL]. cbn [foldl].
  destruct (IH (fill_chassis pkt d) HL) as [-> ->].
  by apply fill_chassis_other_row.
Qed.

Lemma foldl_fill_invariants (L : list ChassisDTO) (pkt : ResourceMonitorResponsePacket) :
  RMPacket_shape pkt ->
  Forall (Forall (fun v => v = 0 \/ v = 1)) (rm_boardStates pkt) ->
  Forall (Forall (Forall (fun v => v = 0 \/ v = 1 \/ v = 2))) (rm_taskStates pkt) ->
  let pkt' := foldl fill_chassis pkt L in
  RMPacket_shape pkt' /\
  rm_commandCode pkt' = rm_commandCode pkt /\ rm_responseID pkt' = rm_responseID pkt /\
  Forall (Forall (fun v => v = 0 \/ v = 1)) (rm_boardStates pkt') /\
  Forall (Forall (Forall (fun v => v = 0 \/ v = 1 \/ v = 2))) (rm_taskStates pkt').
Proof.
  revert pkt. induction L as [|d L IH]; intros pkt Hs Hb Ht; [done|].
  cbn [foldl].
  destruct (fill_chassis_range pkt d Hb Ht) as [Hb' Ht'].
  destruct (fill_chassis_fixed pkt d) as (_ & Hc & Hr).
  destruct (IH (fill_chassis pkt d) (fill_chassis_shape pkt d Hs) Hb' Ht')
    as (H1 & H2 & H3 & H4 & H5).
  split; [done|]. split; [by rewrite H2|]. split; [by rewrite H3|]. done.
Qed.

Lemma length_concat_uniform {A} (l : list (list A)) (m : nat) :
  Forall (fun r => length r = m) l -> length (concat l) = (length l * m)%nat.
Proof.
  induction l as [|r l IH]; intros H; [done|].
  apply Forall_cons in H as [Hr H]. cbn [concat length].
  rewrite length_app, IH by done. lia.
Qed.

Lemma length_le_bytes (n : nat) (v : Z) : length (le_bytes n v) = n.
Proof. unfold le_bytes. by rewrite length_map, length_seq. Qed.

Lemma serialize_length (pkt : ResourceMonitorResponsePacket) :
  RMPacket_shape pkt -> length (serialize pkt) = 1000%nat.
Proof.
  intros (Hh & Hbl & Hbr & Htl & Htr). unfold serialize.
  rewrite !length_app, !length_le_bytes, Hh.
  rewrite (length_concat_uniform _ 12) by done. rewrite Hbl.
  rewrite (length_concat_uniform _ 8).
  - rewrite (length_concat_uniform _ 12), Htl; [lia|].
    eapply Forall_impl; [exact Htr|]. by intros r [? _].
  - apply List.Forall_forall. intros r' Hr'. apply in_concat in Hr' as (r & Hr & Hr').
    rewrite List.Forall_forall in Htr. destruct (Htr r Hr) as [_ Hrows].
    rewrite List.Forall_forall in Hrows. by apply Hrows.
Qed.

Lemma serialize_commandCode_bytes (pkt : ResourceMonitorResponsePacket) :
  length (rm_header pkt) = 22%nat -> rm_commandCode pkt = 0xF000 ->
  serialize pkt !! 22%nat = Some 0 /\ serialize pkt !! 23%nat = Some 0xF0.
Proof.
  intros Hh Hc. unfold serialize. rewrite Hc.
  split; rewrite lookup_app_r by lia; rewrite Hh; reflexivity.
Qed.

Lemma RMPacket_new_invariants (responseID : Z) :
  RMPacket_shape (RMPacket_new responseID) /\
  Forall (Forall (fun v => v = 0 \/ v = 1)) (rm_boardStates (RMPacket_new responseID)) /\
  Forall (Forall (Forall (fun v => v = 0 \/ v = 1 \/ v = 2)))
    (rm_taskStates (RMPacket_new responseID)).
Proof.
  cbn [RMPacket_new rm_boardStates rm_taskStates]. split; [|split].
  - unfold RMPacket_shape, RMPacket_new. cbn [rm_header rm_boardStates rm_taskStates].
    rewrite !length_replicate. split; [done|]. split; [done|].
    split; [apply Forall_replicate; apply length_replicate|].
    split; [done|]. apply Forall_replicate. rewrite length_replicate.
    split; [done|]. apply Forall_replicate, length_replicate.
  - do 2 apply Forall_replicate. by left.
  - do 3 apply Forall_replicate. by left.
Qed.

Lemma task_code_spec (st : string) :
  ((st = "normal" \/ st = "running") -> task_code st = 1) /\
  ((st = "" \/ st = "unknown") -> task_code st = 0) /\
  (st ∉ ["normal"; "running"; ""; "unknown"] -> task_code st = 2).
Proof.
  split; [intros [-> | ->]; reflexivity|].
  split; [intros [-> | ->]; reflexivity|].
  intros Hn. unfold task_code.
  destruct (String.eqb_spec st "") as [->|H1]; [set_solver|].
  destruct (String.eqb_spec st "unknown") as [->|H2]; [set_solver|].
  destruct (String.eqb_spec st "normal") as [->|H3]; [set_solver|].
  destruct (String.eqb_spec st "running") as [->|H4]; [set_solver|].
  reflexivity.
Qed.

(** The collector keeps boards well formed, which is the hypothesis on the
    board in the theorem below. *)
Lemma collect_board_wf (boardInfos : list BoardInfoData) (b : Board) :
  Board_wf b -> Board_wf (collect_board boardInfos b).
Proof.
  intros (Hl & Hc & Hnc & Hz). unfold collect_board.
  destruct (find_board_info boardInfos (m_boardAddress b)) as [bi|].
  - set (ts := ConvertTasks (bi_taskInfos bi)).
    destruct (CollectorFacts.UpdateFromApiData_ids b (bi_boardStatus bi) ts)
      as (_ & _ & Hty).
    destruct (Board_CanRunTasks b) eqn:Hcan.
    + destruct (BoardFacts.UpdateFromApiData_computing b (bi_boardStatus bi) ts Hcan Hl)
        as (_ & Hn & Hl' & Hk).
      unfold Board_wf. rewrite Hn, Hl'. split; [done|].
      split; [unfold MAX_TASKS_PER_BOARD; lia|].
      split.
      * intros Hne. rewrite Hty in Hne. unfold Board_CanRunTasks in Hcan.
        by destruct (m_boardType b).
      * intros k t Hkt Hge.
        assert (Hk8 : (k < MAX_TASKS_PER_BOARD)%nat)
          by (apply lookup_lt_Some in Hkt; by rewrite Hl' in Hkt).
        rewrite Hk, decide_False in Hkt by lia. by injection Hkt as <-.
    + destruct (BoardFacts.UpdateFromApiData_not_computing b (bi_boardStatus bi) ts Hcan)
        as (_ & Hn & Ht).
      assert (H0 : m_taskCount b = 0).
      { apply Hnc. intros He. unfold Board_CanRunTasks in Hcan. by rewrite He in Hcan. }
      unfold Board_wf. rewrite Hn, Ht, Hty. split; [done|].
      split; [unfold MAX_TASKS_PER_BOARD; lia|]. split; [done|].
      intros k t Hkt _. apply (Hz k t Hkt). lia.
  - destruct (BoardFacts.MarkAsOffline_spec b Hl) as (_ & Hn & Hl' & Hk).
    unfold Board_wf. rewrite Hn, Hl'. split; [done|].
    split; [unfold MAX_TASKS_PER_BOARD; lia|]. split; [done|].
    intros k t Hkt _.
    assert (Hk8 : (k < MAX_TASKS_PER_BOARD)%nat)
      by (apply lookup_lt_Some in Hkt; by rewrite Hl' in Hkt).
    rewrite Hk in Hkt by done. by injection Hkt as <-.
Qed.

Lemma overview_numbers_other (l : list Chassis) (c : Chassis) (i : nat) :
  m_chassisNumber c = Z.of_nat i + 1 ->
  Forall (fun c2 => m_chassisNumber c2 <> m_chassisNumber c) l ->
  Forall (fun d => cd_chassisNumber d <> Z.of_nat i + 1)
    (ConvertChassisToDTO <$> filter (fun c => m_chassisNumber c <> 0) l).
Proof.
  intros Hn. induction l as [|c2 l IH]; intros Hl; [constructor|].
  apply Forall_cons in Hl as [H1 Hl]. rewrite filter_cons.
  destruct (decide _); [|by apply IH].
  rewrite fmap_cons. constructor; [cbn; lia|by apply IH].
Qed.

(** Row [i] of the packet is what the chassis numbered [i + 1] writes over
    the zeroed row. *)
Lemma broadcast_row (responseID : Z) (repo : ChassisRepo.state)
    (pre suf : list Chassis) (c : Chassis) (i : nat) :
  ChassisRepo.GetAll repo = pre ++ c :: suf ->
  Forall (fun c2 => m_chassisNumber c2 <> m_chassisNumber c) (pre ++ suf) ->
  m_chassisNumber c = Z.of_nat i + 1 -> (i < 9)%nat ->
  let pkt := fst (BroadcastChassisStates responseID repo) in
  let r := fill_boards 0 (ConvertBoardToDTO <$> m_boards c)
             (replicate 12 0) (replicate 12 (replicate 8 0)) in
  rm_boardStates pkt !! i = Some r.1 /\ rm_taskStates pkt !! i = Some r.2.
Proof.
  intros HL Hu Hn Hi. unfold BroadcastChassisStates, GetSystemOverview. cbn [fst].
  rewrite HL, filter_app, filter_cons_True by lia.
  rewrite fmap_app, fmap_cons, foldl_app. cbn [foldl].
  apply Forall_app in Hu as [Hpre Hsuf].
  set (pkt1 := fill_chassis _ (ConvertChassisToDTO c)).
  destruct (foldl_fill_other_rows _ pkt1 i (overview_numbers_other suf c i Hn Hsuf))
    as [-> ->].
  unfold pkt1.
  destruct (foldl_fill_other_rows _ (RMPacket_new responseID) i
              (overview_numbers_other pre c i Hn Hpre)) as [Hb Ht].
  apply fill_chassis_this_row; [cbn; lia|done| |].
  - rewrite Hb. cbn [RMPacket_new rm_boardStates]. by rewrite lookup_replicate_2.
  - rewrite Ht. cbn [RMPacket_new rm_taskStates]. by rewrite lookup_replicate_2.
Qed.

Lemma Board_wfb_wf (b : Board) : Board_wfb b = true -> Board_wf b.
Proof.
  unfold Board_wfb. intros H.
  apply andb_prop in H as [H Hall]. apply andb_prop in H as [H Htype].
  apply andb_prop in H as [H Hle]. apply andb_prop in H as [Hlen Hge].
  apply Nat.eqb_eq in Hlen. apply Z.leb_le in Hle. apply Z.leb_le in Hge.
  split; [done|]. split; [lia|]. split.
  - intros Hne. unfold Board_CanRunTasks in Htype.
    destruct (m_boardType b); [done| |]; by apply Z.eqb_eq.
  - intros k t Hkt Hk. rewrite forallb_forall in Hall.
    assert (Hin : In (Z.ltb (Z.of_nat k) (m_taskCount b) || String.eqb (tsi_taskStatus t) "")
               (imap (fun k t => Z.ltb (Z.of_nat k) (m_taskCount b)
                                 || String.eqb (tsi_taskStatus t) "") (m_tasks b))).
    { apply list_elem_of_In. apply (list_elem_of_lookup_2 _ k).
      by rewrite list_lookup_imap, Hkt. }
    apply Hall in Hin. rewrite (proj2 (Z.ltb_ge _ _)) in Hin by lia.
    by apply String.eqb_eq.
Qed.

(** ** C4 *)
(** Claim C4: every board-status packet the broadcaster builds is 1000
    bytes long with command code 0xF000 (bytes 0x00 0xF0 at offsets 22 and
    23 in memory order), every [boardStates] entry is 0 or 1 and every
    [taskStates] entry 0, 1 or 2.  For the chassis numbered [i + 1] (the
    only one with that number), its board [j < 12] and task slot [k < 8]:
    [boardStates[i][j]] is 1 for a Normal board and 0 for any other status,
    and [taskStates[i][j][k]] is 1 for status "normal" or "running", 0 for
    an empty status or "unknown", 2 for any other status string of slot
    [k], for a board whose slots are as the collector keeps them
    ([Board_wf], preserved by [collect_board_wf]). *)
Theorem BroadcastChassisStates_packet :
  (forall (responseID : Z) (repo : ChassisRepo.state),
     let pkt := fst (BroadcastChassisStates responseID repo) in
     length (serialize pkt) = 1000%nat /\ rm_commandCode pkt = 0xF000 /\
     serialize pkt !! 22%nat = Some 0 /\ serialize pkt !! 23%nat = Some 0xF0 /\
     Forall (Forall (fun v => v = 0 \/ v = 1)) (rm_boardStates pkt) /\
     Forall (Forall (Forall (fun v => v = 0 \/ v = 1 \/ v = 2))) (rm_taskStates pkt)) /\
  (forall (responseID : Z) (repo : ChassisRepo.state) (pre suf : list Chassis)
          (c : Chassis) (b : Board) (i j k : nat),
     ChassisRepo.GetAll repo = pre ++ c :: suf ->
     Forall (fun c2 => m_chassisNumber c2 <> m_chassisNumber c) (pre ++ suf) ->
     m_chassisNumber c = Z.of_nat i + 1 -> (i < 9)%nat ->
     m_boards c !! j = Some b -> (j < 12)%nat -> Board_wf b -> (k < 8)%nat ->
     let pkt := fst (BroadcastChassisStates responseID repo) in
     (exists v, boardState pkt i j = Some v /\
        (m_status b = BOS_Normal -> v = 1) /\ (m_status b <> BOS_Normal -> v = 0)) /\
     (exists t v, m_tasks b !! k = Some t /\ taskState pkt i j k = Some v /\
        (tsi_taskStatus t = "normal" \/ tsi_taskStatus t = "running" -> v = 1) /\
        (tsi_taskStatus t = "" \/ tsi_taskStatus t = "unknown" -> v = 0) /\
        (tsi_taskStatus t ∉ ["normal"; "running"; ""; "unknown"] -> v = 2))).
Proof.
  split.
  - intros responseID repo. cbv zeta.
    destruct (RMPacket_new_invariants responseID) as (Hs & Hb & Ht).
    destruct (foldl_fill_invariants (GetSystemOverview repo) _ Hs Hb Ht)
      as (Hs' & Hc & _ & Hb' & Ht').
    unfold BroadcastChassisStates. cbn [fst].
    assert (Hc' : rm_commandCode (foldl fill_chassis (RMPacket_new responseID)
                                    (GetSystemOverview repo)) = 0xF000) by exact Hc.
    destruct (serialize_commandCode_bytes _ (proj1 Hs') Hc') as [B22 B23].
    split; [by apply serialize_length|]. done.
  - intros responseID repo pre suf c b i j k HL Hu Hn Hi Hbj Hj Hwf Hk. cbv zeta.
    destruct (broadcast_row responseID repo pre suf c i HL Hu Hn Hi) as [Hrb Hrt].
    destruct (fill_boards_spec (ConvertBoardToDTO <$> m_boards c) 0
                (replicate 12 0) (replicate 12 (replicate 8 0)))
      as (_ & _ & _ & Hin & _).
    { by rewrite length_replicate. }
    { by rewrite length_replicate. }
    { apply Forall_replicate, length_replicate. }
    pose proof (lookup_lt_Some _ _ _ Hbj) as Hjl.
    destruct (Hin j) as (bd & Hbd & H1 & H2); [rewrite length_fmap; lia|].
    rewrite Nat.sub_0_r, list_lookup_fmap, Hbj in Hbd. injection Hbd as <-.
    split.
    + unfold boardState. rewrite Hrb. cbn [mbind option_bind]. rewrite H1.
      eexists. split; [reflexivity|].
      cbn [ConvertBoardToDTO bd_boardStatus].
      destruct (m_status b); cbn; split; intros; congruence.
    + destruct Hwf as (Hl & Hc & _ & Hz).
      destruct (lookup_lt_is_Some_2 (m_tasks b) k) as [t Ht];
        [rewrite Hl; unfold MAX_TASKS_PER_BOARD; lia|].
      exists t, (task_code (tsi_taskStatus t)). split; [done|].
      split.
      * unfold taskState. rewrite Hrt. cbn [mbind option_bind]. rewrite H2.
        rewrite lookup_replicate_2 by lia. cbn [fmap option_fmap option_map mbind option_bind].
        set (n := Nat.min (Z.to_nat (m_taskCount b)) MAX_TASKS_PER_BOARD).
        set (sts := tsi_taskStatus <$> take n (m_tasks b)).
        assert (Hsl : length sts = n).
        { unfold sts. rewrite length_fmap, length_take, Hl.
          unfold n, MAX_TASKS_PER_BOARD in *. lia. }
        destruct (fill_tasks_spec sts 0 (replicate 8 0)) as [_ Hft];
          [apply length_replicate|].
        cbn [ConvertBoardToDTO bd_taskStatuses]. fold n. fold sts.
        rewrite Hft, Hsl, Nat.sub_0_r.
        destruct (decide (k < n)%nat) as [Hkn|Hkn].
        -- rewrite decide_True by lia. unfold sts.
           rewrite list_lookup_fmap, lookup_take_lt, Ht by done. reflexivity.
        -- rewrite decide_False by lia. rewrite lookup_replicate_2 by lia.
           rewrite (Hz k t Ht) by (unfold n, MAX_TASKS_PER_BOARD in *; lia).
           reflexivity.
      * apply task_code_spec.
Qed.

Lemma BroadcastChassisStates_packet_witness :
  let pkt := fst (BroadcastChassisStates 0
                    (CollectBoardInfo (Some [sample_board_info]) sample_repo)) in
  length (serialize pkt) = 1000%nat /\
  boardState pkt 0%nat 0%nat = Some 1 /\ taskState pkt 0%nat 0%nat 0%nat = Some 1.
Proof.
  cbv zeta.
  destruct BroadcastChassisStates_packet as [Hall Hmap].
  split; [apply (Hall 0 (CollectBoardInfo (Some [sample_board_info]) sample_repo))|].
  destruct (Hmap 0 (CollectBoardInfo (Some [sample_board_info]) sample_repo) [] []
              (collect_chassis [sample_board_info] sample_chassis)
              (collect_board [sample_board_info] sample_board) 0%nat 0%nat 0%nat)
    as [(v & Hv & Hnormal & _) (t & w & Ht & Hw & Hrun & _ & _)].
  - vm_compute. reflexivity.
  - constructor.
  - reflexivity.
  - lia.
  - vm_compute. reflexivity.
  - lia.
  - apply Board_wfb_wf. vm_compute. reflexivity.
  - lia.
  - rewrite Hnormal in Hv by (vm_compute; reflexivity).
    vm_compute in Ht. injection Ht as <-.
    rewrite Hrun in Hw by (right; reflexivity).
    split; [exact Hv|exact Hw].
Defined.

End BroadcastFacts.

(* --------------------------------------------------------------------- *)
(** ** Counting loops over a [std::map]                                    *)
(* --------------------------------------------------------------------- *)

Module CountFacts.

(** A [count++] loop over the entries counts the entries that pass. *)
Lemma foldl_count_filter {A} (p : A -> bool) (l : list (string * A)) (n : nat) :
  foldl (fun count kv => if p kv.2 then S count else count) n l =
  (n + length (filter (fun kv => p kv.2 = true) l))%nat.
Proof.
  revert n. induction l as [|[k a] l IH]; intros n; simpl; [lia|].
  rewrite filter_cons. simpl. case_decide as Hp; simpl.
  - rewrite Hp, IH. lia.
  - destruct (p a); [done|]. rewrite IH. done.
Qed.

Lemma length_filter_fmap_snd {A} (P : A -> Prop) `{forall a, Decision (P a)}
    (l : list (string * A)) :
  length (filter P (snd <$> l)) = length (filter (fun kv => P kv.2) l).
Proof.
  induction l as [|[k a] l IH]; [done|].
  rewrite fmap_cons, !filter_cons. simpl.
  case_decide; simpl; rewrite IH; done.
Qed.

(** The number of entries of [m] that pass is the size of the filtered map. *)
Lemma length_filter_map_to_list {A} (P : string * A -> Prop)
    `{forall kv, Decision (P kv)} (m : gmap string A) :
  length (filter P (map_to_list m)) = size (filter P m).
Proof.
  rewrite map_filter_alt, <- length_map_to_list.
  apply Permutation_length. symmetry. apply map_to_list_to_map.
  apply (sublist_NoDup _ (map_to_list m).*1); [apply NoDup_fst_map_to_list|].
  apply fmap_sublist, sublist_filter.
Qed.

Lemma foldl_count_size {A} (p : A -> bool) (m : gmap string A) :
  foldl (fun count kv => if p kv.2 then S count else count) 0%nat (map_to_list m) =
  size (filter (fun kv => p kv.2 = true) m).
Proof. rewrite foldl_count_filter, length_filter_map_to_list. done. Qed.

(** Two entries that are both counted or both skipped, key by key, give
    the same count. *)
Lemma filter_map_ext {A} (p : A -> bool) (m1 m2 : gmap string A) :
  (forall k a, p a = true -> (m1 !! k = Some a <-> m2 !! k = Some a)) ->
  filter (fun kv => p kv.2 = true) m1 = filter (fun kv => p kv.2 = true) m2.
Proof.
  intros Hext. apply map_eq. intros k. rewrite !map_lookup_filter.
  destruct (m1 !! k) as [a1|] eqn:E1, (m2 !! k) as [a2|] eqn:E2; simpl; try done.
  - destruct (p a1) eqn:P1.
    + apply Hext in E1; [|done]. rewrite E1 in E2. injection E2 as ->.
      rewrite P1. done.
    + destruct (p a2) eqn:P2; [|done].
      apply (Hext k a2 P2) in E2. congruence.
  - destruct (p a1) eqn:P1; [|done]. apply (Hext k a1 P1) in E1. congruence.
  - destruct (p a2) eqn:P2; [|done]. apply (Hext k a2 P2) in E2. congruence.
Qed.

End CountFacts.

(* --------------------------------------------------------------------- *)
(** ** InMemoryAlertRepository: queries and counters                       *)
(* --------------------------------------------------------------------- *)

Module AlertQueryFacts.
Import AlertRepo CountFacts.

Lemma count_if_size (p : Alert -> bool) (m : store) :
  count_if p m = size (filter (fun kv => p kv.2 = true) m).
Proof. apply foldl_count_size. Qed.

Lemma count_if_length (p : Alert -> bool) (m : store) :
  count_if p m = length (filter (fun kv => p kv.2 = true) (map_to_list m)).
Proof. unfold count_if. rewrite foldl_count_filter. done. Qed.

(** [CountUnacknowledged] counts exactly the alerts [GetUnacknowledged]
    returns. *)
Theorem CountUnacknowledged_GetUnacknowledged (m : store) :
  CountUnacknowledged m = length (GetUnacknowledged m).
Proof.
  unfold CountUnacknowledged, GetUnacknowledged, GetAllActive.
  rewrite count_if_length, length_filter_fmap_snd. simpl.
  f_equal. apply list_filter_iff. intros [k a]. simpl.
  destruct (Alert_IsAcknowledged a); simpl; split; congruence.
Qed.

(** Board and component alerts split the store: [CountBoardAlerts] and
    [CountComponentAlerts] are the lengths of [FindByType] for the two types
    and add up to [Count]; no more alerts are unacknowledged than stored. *)
Theorem alert_counters_split (m : store) :
  CountBoardAlerts m = length (FindByType AlertType_Board m) /\
  CountComponentAlerts m = length (FindByType AlertType_Component m) /\
  (CountBoardAlerts m + CountComponentAlerts m = Count m)%nat /\
  (CountUnacknowledged m <= Count m)%nat.
Proof.
  unfold CountBoardAlerts, CountComponentAlerts, CountUnacknowledged, Count,
    FindByType, GetAllActive.
  rewrite !count_if_length, !length_filter_fmap_snd, <- length_map_to_list.
  generalize (map_to_list m) as l.
  induction l as [|[k a] l IH]; [simpl; lia|].
  rewrite !filter_cons. simpl.
  unfold Alert_IsBoardAlert, Alert_IsComponentAlert.
  destruct (m_alertType a), (Alert_IsAcknowledged a); simpl;
    repeat case_decide; simpl in *; try congruence; lia.
Qed.

(** [Acknowledge(u)] lowers [CountUnacknowledged] by one when [u] held an
    unacknowledged alert and leaves it unchanged otherwise. *)
Theorem Acknowledge_CountUnacknowledged (u : string) (m : store) :
  CountUnacknowledged m =
    (CountUnacknowledged (Acknowledge u m).2 +
     match m !! u with
     | Some a => if Alert_IsAcknowledged a then 0 else 1
     | None => 0
     end)%nat.
Proof.
  unfold CountUnacknowledged. rewrite !count_if_size.
  unfold Acknowledge. destruct (m !! u) as [a|] eqn:Hu; simpl; [|lia].
  rewrite map_filter_insert_False by (unfold Alert_Acknowledge; simpl; done).
  rewrite map_filter_delete, map_size_delete, map_lookup_filter, Hu. simpl.
  destruct (Alert_IsAcknowledged a) eqn:Ha; simpl.
  - lia.
  - assert (Hin : filter (fun kv : string * Alert => negb (Alert_IsAcknowledged kv.2) = true) m
                    !! u = Some a) by (apply map_lookup_filter_Some; simpl; rewrite Ha; done).
    assert (size (filter (fun kv : string * Alert => negb (Alert_IsAcknowledged kv.2) = true) m)
              <> 0%nat).
    { intros Hz. apply map_size_empty_inv in Hz. rewrite Hz, lookup_empty in Hin. done. }
    lia.
Qed.

(** The loop of [AcknowledgeMultiple] from any counter and store. *)
Lemma AcknowledgeMultiple_loop (us : list string) (m : store) (c : nat) :
  let r := foldl (fun acc u =>
                    let '(count, m0) := acc in
                    match m0 !! u with
                    | Some a => (S count, <[u := Alert_Acknowledge a]> m0)
                    | None => (count, m0)
                    end) (c, m) us in
  r.1 = (c + length (filter (fun u => is_Some (m !! u)) us))%nat /\
  (forall u a, m !! u = Some a -> u ∈ us \/ Alert_IsAcknowledged a = true ->
     exists a', r.2 !! u = Some a' /\ Alert_IsAcknowledged a' = true).
Proof.
  revert m c. induction us as [|v us IH]; intros m c; simpl.
  - split; [lia|]. intros u a Hu [Hin|Ha]; [set_solver|eauto].
  - rewrite filter_cons. destruct (m !! v) as [a|] eqn:Hv.
    + destruct (IH (<[v:=Alert_Acknowledge a]> m) (S c)) as [Hc Hf].
      split.
      * rewrite Hc, decide_True by eauto. simpl.
        assert (Hflt : filter (fun u => is_Some (<[v:=Alert_Acknowledge a]> m !! u)) us =
                       filter (fun u => is_Some (m !! u)) us).
        { apply list_filter_iff. intros w. rewrite lookup_insert_is_Some'.
          split; [intros [->|?]; eauto|eauto]. }
        rewrite Hflt. lia.
      * intros u a0 Hu Hor. destruct (decide (u = v)) as [->|Hne].
        -- apply (Hf v (Alert_Acknowledge a)); [apply lookup_insert_eq|by right].
        -- apply (Hf u a0); [by rewrite lookup_insert_ne by congruence|].
           destruct Hor as [Hin|Ha]; [left; set_solver|by right].
    + destruct (IH m c) as [Hc Hf]. split.
      * rewrite Hc, decide_False; [done|]. intros [? ?]; done.
      * intros u a0 Hu Hor. apply (Hf u a0 Hu).
        destruct Hor as [Hin|Ha]; [|by right]. left.
        apply elem_of_cons in Hin as [->|Hin]; [congruence|done].
Qed.

(** [AcknowledgeMultiple(us)] returns how many entries of [us] name a
    stored alert, counting a uuid listed twice twice, and afterwards every
    listed stored alert is acknowledged. *)
Theorem AcknowledgeMultiple_count_and_flags (us : list string) (m : store) :
  (AcknowledgeMultiple us m).1 = length (filter (fun u => is_Some (m !! u)) us) /\
  (forall u, u ∈ us -> is_Some (m !! u) ->
     exists a', (AcknowledgeMultiple us m).2 !! u = Some a' /\
                Alert_IsAcknowledged a' = true).
Proof.
  unfold AcknowledgeMultiple.
  destruct (AcknowledgeMultiple_loop us m 0) as [Hc Hf]. split.
  - rewrite Hc. done.
  - intros u Hin [a Hu]. apply (Hf u a Hu). by left.
Qed.

(** [Remove(u)] reports whether [u] was stored, leaves no alert under [u],
    keeps every other alert, and lowers [Count] by exactly the number it
    erased. *)
Theorem Remove_spec (u : string) (m : store) :
  ((Remove u m).1 = true <-> is_Some (FindByUUID u m)) /\
  FindByUUID u (Remove u m).2 = None /\
  (forall v, v <> u -> FindByUUID v (Remove u m).2 = FindByUUID v m) /\
  Count m = (Count (Remove u m).2 + if (Remove u m).1 then 1 else 0)%nat.
Proof.
  unfold Remove, FindByUUID, Count. simpl. split; [|split; [|split]].
  - by rewrite bool_decide_eq_true.
  - apply lookup_delete_eq.
  - intros v Hv. apply lookup_delete_ne. congruence.
  - rewrite map_size_delete. destruct (m !! u) as [a|] eqn:Hu; simpl.
    + assert (size m <> 0%nat).
      { intros Hz. apply map_size_empty_inv in Hz. subst. by rewrite lookup_empty in Hu. }
      lia.
    + lia.
Qed.

(** [Save(a)] then [FindByUUID] on the alert's uuid returns [a]; other
    uuids see the store unchanged; [Count] grows by one only for a new
    uuid. *)
Theorem Save_FindByUUID (a : Alert) (m : store) :
  FindByUUID (Alert_GetAlertUUID a) (Save a m) = Some a /\
  (forall v, v <> Alert_GetAlertUUID a -> FindByUUID v (Save a m) = FindByUUID v m) /\
  Count (Save a m) =
    (Count m + if bool_decide (is_Some (FindByUUID (Alert_GetAlertUUID a) m)) then 0 else 1)%nat.
Proof.
  unfold Save, FindByUUID, Count. split; [|split].
  - apply lookup_insert_eq.
  - intros v Hv. apply lookup_insert_ne. congruence.
  - rewrite map_size_insert. destruct (m !! Alert_GetAlertUUID a) eqn:Hu; simpl; lia.
Qed.

(** How [RemoveExpired] looks up, key by key. *)
Lemma RemoveExpired_lookup (now maxAgeSeconds : Z) (m : store) (u : string) :
  (RemoveExpired now maxAgeSeconds m).1 !! u =
    match m !! u with
    | Some a => if expired now maxAgeSeconds a then None else Some a
    | None => None
    end.
Proof.
  unfold RemoveExpired.
  destruct (AlertRepoFacts.RemoveExpired_loop now maxAgeSeconds (map_to_list m) m 0)
    as (_ & Hnone & Hsame).
  { apply NoDup_fst_map_to_list. }
  { intros kv Hkv. by apply elem_of_map_to_list'. }
  destruct (m !! u) as [a|] eqn:Hu.
  - destruct (expired now maxAgeSeconds a) eqn:E.
    + apply Hnone. apply AlertRepoFacts.exp_in_map_to_list. eauto.
    + rewrite Hsame, Hu; [done|]. rewrite AlertRepoFacts.exp_in_map_to_list.
      intros (a' & Ha' & E'). congruence.
  - rewrite Hsame, Hu; [done|]. rewrite AlertRepoFacts.exp_in_map_to_list.
    intros (a' & Ha' & E'). congruence.
Qed.

(** [RemoveExpired] never changes [CountUnacknowledged]: it only erases
    acknowledged alerts. *)
Theorem RemoveExpired_CountUnacknowledged (now maxAgeSeconds : Z) (m : store) :
  CountUnacknowledged (RemoveExpired now maxAgeSeconds m).1 = CountUnacknowledged m.
Proof.
  unfold CountUnacknowledged. rewrite !count_if_size. f_equal.
  apply (filter_map_ext (fun a => negb (Alert_IsAcknowledged a))).
  intros k a Ha. rewrite RemoveExpired_lookup.
  destruct (m !! k) as [a0|] eqn:Hk; [|done].
  destruct (expired now maxAgeSeconds a0) eqn:E; [|done].
  split; [done|]. intros Heq. injection Heq as ->.
  unfold expired in E. destruct (Alert_IsAcknowledged a); done.
Qed.

End AlertQueryFacts.

(* --------------------------------------------------------------------- *)
(** ** Stack, Service and Task: labels, services and statuses              *)
(* --------------------------------------------------------------------- *)

Module StackDomainFacts.
Import StackDomain.

Lemma take_insert_last {A} (l : list A) (n : nat) (x : A) :
  (n < length l)%nat -> take (S n) (<[n:=x]> l) = take n l ++ [x].
Proof.
  intros Hn. rewrite (take_S_r _ _ x).
  - rewrite take_insert_ge by lia. done.
  - apply list_lookup_insert_eq. done.
Qed.

(** One call of [AddLabel] on well-formed label slots. *)
Lemma AddLabel_step (s : Stack) (l : StackLabelInfo) (u : string) :
  Stack_labels_wf s ->
  let r := Stack_AddLabel s l in
  (r.1 = true <-> m_labelCount s < Z.of_nat MAX_LABELS_PER_STACK) /\
  (r.1 = false -> r.2 = s) /\
  Stack_labels_wf r.2 /\
  m_labelCount r.2 = (if r.1 then m_labelCount s + 1 else m_labelCount s) /\
  Stack_HasLabel r.2 u = Stack_HasLabel s u || (r.1 && String.eqb (labelUUID l) (c_str u)) /\
  m_services r.2 = m_services s.
Proof.
  unfold Stack_labels_wf, Stack_AddLabel, MAX_LABELS_PER_STACK.
  change (Z.of_nat 8) with 8. intros [Hlen Hc].
  destruct (Z.leb_spec 8 (m_labelCount s)) as [Hle|Hlt]; simpl.
  - repeat split; try done; try lia. rewrite orb_false_r. done.
  - repeat split; try done; try lia.
    + rewrite length_insert. done.
    + unfold Stack_HasLabel. simpl.
      replace (Z.to_nat (m_labelCount s + 1)) with (S (Z.to_nat (m_labelCount s))) by lia.
      rewrite take_insert_last by lia. rewrite existsb_app. simpl.
      rewrite orb_false_r. done.
Qed.

(** The label loop of [ConvertToStack] from any well-formed stack. *)
Lemma AddLabels_loop (lis : list LabelInfoData) (s : Stack) (u : string) :
  Stack_labels_wf s ->
  let s' := foldl (fun s li => snd (Stack_AddLabel s
                      (mkStackLabelInfo (strncpy_field 128 (li_labelName li))
                                        (strncpy_field 64 (li_labelUUID li))))) s lis in
  Stack_labels_wf s' /\
  m_labelCount s' = Z.min (m_labelCount s + Z.of_nat (length lis)) 8 /\
  Stack_HasLabel s' u =
    Stack_HasLabel s u ||
    existsb (fun li => String.eqb (strncpy_field 64 (li_labelUUID li)) (c_str u))
      (take (Z.to_nat (8 - m_labelCount s)) lis) /\
  m_services s' = m_services s.
Proof.
  revert s. induction lis as [|li lis IH]; intros s Hwf; simpl.
  - split; [done|]. destruct Hwf as [_ Hc]. unfold MAX_LABELS_PER_STACK in Hc.
    change (Z.of_nat 8) with 8 in Hc.
    rewrite take_nil, orb_false_r. repeat split; try done; lia.
  - set (l := mkStackLabelInfo (strncpy_field 128 (li_labelName li))
                               (strncpy_field 64 (li_labelUUID li))).
    destruct (AddLabel_step s l u Hwf) as (Hok & Hsame & Hwf1 & Hcnt & Hhas & Hsv).
    destruct (IH _ Hwf1) as (Hwf2 & Hcnt2 & Hhas2 & Hsv2).
    destruct Hwf as [_ Hc]. unfold MAX_LABELS_PER_STACK in Hc, Hok.
    change (Z.of_nat 8) with 8 in Hc, Hok.
    destruct (Stack_AddLabel s l) as [ok s1] eqn:Hadd. simpl in *.
    split; [done|]. split; [|split].
    + rewrite Hcnt2, Hcnt. destruct ok; lia.
    + rewrite Hhas2, Hhas. destruct ok.
      * replace (Z.to_nat (8 - m_labelCount s)) with (S (Z.to_nat (8 - (m_labelCount s + 1))))
          by (destruct Hok as [Hk _]; specialize (Hk eq_refl); lia).
        rewrite Hcnt. simpl. rewrite orb_assoc. done.
      * assert (m_labelCount s = 8) by (destruct (Z.lt_ge_cases (m_labelCount s) 8) as [H|H];
          [apply Hok in H; done|lia]).
        rewrite Hcnt. rewrite H. simpl. rewrite !orb_false_r. done.
    + rewrite Hsv2, Hsv. done.
Qed.

Lemma AddServices_labels (svis : list ServiceInfoData) (s : Stack) :
  let s' := foldl (fun s svi => Stack_AddOrUpdateService s (ConvertService svi)) s svis in
  m_labels s' = m_labels s /\ m_labelCount s' = m_labelCount s.
Proof.
  revert s. induction svis as [|svi svis IH]; intros s; simpl; [done|].
  destruct (IH (Stack_AddOrUpdateService s (ConvertService svi))) as [H1 H2].
  rewrite H1, H2. done.
Qed.

Lemma Stack_HasLabel_ext (s1 s2 : Stack) (u : string) :
  m_labels s1 = m_labels s2 -> m_labelCount s1 = m_labelCount s2 ->
  Stack_HasLabel s1 u = Stack_HasLabel s2 u.
Proof. intros H1 H2. unfold Stack_HasLabel. rewrite H1, H2. done. Qed.

(** [AddLabel] on well-formed slots succeeds exactly while fewer than
    eight labels are stored.  On success [HasLabel] also answers [true] for
    the new label's uuid and keeps its other answers; on failure the stack
    is unchanged.  The slots stay well formed. *)
Theorem AddLabel_HasLabel (s : Stack) (l : StackLabelInfo) (u : string) :
  Stack_labels_wf s ->
  let '(ok, s') := Stack_AddLabel s l in
  (ok = true <-> m_labelCount s < 8) /\ (ok = false -> s' = s) /\ Stack_labels_wf s' /\
  Stack_HasLabel s' u = Stack_HasLabel s u || (ok && String.eqb (labelUUID l) (c_str u)).
Proof.
  intros Hwf. destruct (AddLabel_step s l u Hwf) as (Hok & Hsame & Hwf' & _ & Hhas & _).
  destruct (Stack_AddLabel s l) as [ok s'] eqn:E. simpl in *. auto.
Qed.

Lemma AddLabel_HasLabel_witness :
  Stack_labels_wf (Stack_new "stk-1" "stack") /\
  (let '(ok, s') := Stack_AddLabel (Stack_new "stk-1" "stack") (mkStackLabelInfo "L1" "lbl-1") in
   (ok = true <-> m_labelCount (Stack_new "stk-1" "stack") < 8) /\
   (ok = false -> s' = Stack_new "stk-1" "stack") /\ Stack_labels_wf s' /\
   Stack_HasLabel s' "lbl-1" =
     Stack_HasLabel (Stack_new "stk-1" "stack") "lbl-1" ||
     (ok && String.eqb (labelUUID (mkStackLabelInfo "L1" "lbl-1")) (c_str "lbl-1"))).
Proof.
  split.
  - split; [reflexivity|vm_compute; split; discriminate].
  - apply (AddLabel_HasLabel (Stack_new "stk-1" "stack") (mkStackLabelInfo "L1" "lbl-1") "lbl-1").
    split; [reflexivity|vm_compute; split; discriminate].
Defined.

(** [ConvertToStack] keeps the first eight labels the backend reports and
    drops the others: the label count is [min(n, 8)], and [HasLabel(u)]
    holds exactly when one of the first eight reported uuids, cut to 63
    bytes as [strncpy] stores it, equals [u] up to its first NUL. *)
Theorem ConvertToStack_labels (si : StackInfoData) (u : string) :
  m_labelCount (ConvertToStack si) = Z.of_nat (Nat.min (length (si_stackLabelInfos si)) 8) /\
  Stack_labels_wf (ConvertToStack si) /\
  Stack_HasLabel (ConvertToStack si) u =
    existsb (fun li => String.eqb (strncpy_field 64 (li_labelUUID li)) (c_str u))
      (take 8 (si_stackLabelInfos si)).
Proof.
  unfold ConvertToStack. cbv zeta.
  set (s0 := Stack_SetRunningStatus _ _).
  assert (Hwf0 : Stack_labels_wf s0).
  { split; [reflexivity|]. simpl. lia. }
  destruct (AddLabels_loop (si_stackLabelInfos si) s0 u Hwf0) as (Hwf1 & Hc1 & Hh1 & _).
  set (s1 := foldl _ s0 (si_stackLabelInfos si)) in *.
  destruct (AddServices_labels (si_serviceInfos si) s1) as [Hl Hc].
  set (s2 := foldl _ s1 (si_serviceInfos si)) in *.
  assert (E0 : m_labelCount s0 = 0) by reflexivity.
  split; [|split].
  - rewrite Hc, Hc1, E0. lia.
  - destruct Hwf1 as [Hlen Hb]. split; [rewrite Hl; done|rewrite Hc; done].
  - rewrite (Stack_HasLabel_ext s2 s1 u Hl Hc), Hh1, E0. done.
Qed.

Lemma find_first_Some {A B} (f : A -> option B) (l : list A) (y : B) :
  find_first f l = Some y -> exists x, x ∈ l /\ f x = Some y.
Proof.
  induction l as [|x l IH]; simpl; [done|].
  destruct (f x) eqn:E.
  - intros [= ->]. exists x. split; [left|done].
  - intros H. destruct (IH H) as (x' & Hx' & Hf). exists x'. split; [right|]; done.
Qed.

Lemma find_first_None {A B} (f : A -> option B) (l : list A) :
  find_first f l = None <-> forall x, x ∈ l -> f x = None.
Proof.
  induction l as [|x l IH]; simpl.
  - split; [intros _ x Hx; inversion Hx|done].
  - destruct (f x) eqn:E; split.
    + done.
    + intros H. rewrite H in E; [done|left].
    + intros H y Hy. apply elem_of_cons in Hy as [->|Hy]; [done|]. by apply IH.
    + intros H. apply IH. intros y Hy. apply H. by right.
Qed.

(** A summing loop over the entries does not depend on their order. *)
Lemma foldl_sum_Permutation {A} (f : A -> nat) (l1 l2 : list (string * A)) (n : nat) :
  l1 ≡ₚ l2 ->
  foldl (fun count kv => (count + f kv.2)%nat) n l1 =
  foldl (fun count kv => (count + f kv.2)%nat) n l2.
Proof.
  assert (Hsum : forall (l : list (string * A)) n, foldl (fun count (kv : string * A) => (count + f kv.2)%nat) n l =
                   (n + foldr (fun (kv : string * A) acc => f kv.2 + acc) 0 l)%nat).
  { induction l as [|kv l IH]; intros m; simpl; [lia|]. rewrite IH. lia. }
  intros Hp. rewrite !Hsum. f_equal.
  induction Hp; simpl; lia.
Qed.

(** [RemoveService(u)] reports whether [u] named a service, leaves none
    under [u], and lowers [GetServiceCount] by one and [GetTotalTaskCount]
    by the removed service's task count when it erased one. *)
Theorem RemoveService_counts (s : Stack) (u : string) :
  ((Stack_RemoveService s u).1 = true <-> is_Some (Stack_FindService s u)) /\
  Stack_FindService (Stack_RemoveService s u).2 u = None /\
  Stack_GetServiceCount s =
    (Stack_GetServiceCount (Stack_RemoveService s u).2 +
     if (Stack_RemoveService s u).1 then 1 else 0)%nat /\
  Stack_GetTotalTaskCount s =
    (Stack_GetTotalTaskCount (Stack_RemoveService s u).2 +
     match Stack_FindService s u with Some sv => Service_GetTaskCount sv | None => 0 end)%nat.
Proof.
  unfold Stack_RemoveService, Stack_FindService, Stack_GetServiceCount,
    Stack_GetTotalTaskCount. simpl. split; [|split; [|split]].
  - by rewrite bool_decide_eq_true.
  - apply lookup_delete_eq.
  - rewrite map_size_delete. destruct (m_services s !! u) as [sv|] eqn:Hu; simpl; [|lia].
    assert (size (m_services s) <> 0%nat).
    { intros Hz. apply map_size_empty_inv in Hz. rewrite Hz, lookup_empty in Hu. done. }
    lia.
  - destruct (m_services s !! u) as [sv|] eqn:Hu.
    + rewrite <- (foldl_sum_Permutation Service_GetTaskCount _ _ 0
                   (map_to_list_delete _ _ _ Hu)).
      simpl.
      assert (Hsh : forall (l : list (string * Service)) n, foldl (fun count (kv : string * Service) => (count + Service_GetTaskCount kv.2)%nat) n l =
                      (n + foldl (fun count (kv : string * Service) => (count + Service_GetTaskCount kv.2)%nat) 0 l)%nat).
      { induction l as [|kv l IH]; intros n; simpl; [lia|].
        rewrite IH. symmetry. rewrite IH. lia. }
      rewrite Hsh. lia.
    + rewrite delete_id by done. lia.
Qed.

(** [Service::RecalculateStatus]: a service without tasks keeps its
    status; otherwise it becomes Running when every task runs and Abnormal
    when one does not, and nothing else changes. *)
Theorem RecalculateStatus_spec (sv : Service) :
  (m_tasks sv = ∅ -> Service_RecalculateStatus sv = sv) /\
  (m_tasks sv <> ∅ ->
     m_tasks (Service_RecalculateStatus sv) = m_tasks sv /\
     ((forall id t, m_tasks sv !! id = Some t -> Task_IsRunning t = true) ->
        m_status (Service_RecalculateStatus sv) = ServiceStatus_Running) /\
     ((exists id t, m_tasks sv !! id = Some t /\ Task_IsRunning t = false) ->
        Service_IsAbnormal (Service_RecalculateStatus sv) = true)).
Proof.
  unfold Service_RecalculateStatus. split.
  - intros H. rewrite H. done.
  - intros Hne. assert (Hsz : size (m_tasks sv) <> 0%nat) by (by rewrite map_size_empty_iff).
    destruct (Nat.eqb_spec (size (m_tasks sv)) 0) as [Hz|_]; [done|].
    destruct (forallb (fun kv => Task_IsRunning kv.2) (map_to_list (m_tasks sv))) eqn:Hall.
    + split; [done|split; [done|]].
      intros (id & t & Ht & Hr). rewrite forallb_forall in Hall.
      assert (Hin : In (id, t) (map_to_list (m_tasks sv))).
      { apply list_elem_of_In. by apply elem_of_map_to_list. }
      apply Hall in Hin. simpl in Hin. congruence.
    + split; [done|split].
      * intros Hr. exfalso.
        assert (forallb (fun kv => Task_IsRunning kv.2) (map_to_list (m_tasks sv)) = true)
          as Htrue; [|congruence].
        apply forallb_forall. intros [id t] Hin. apply list_elem_of_In in Hin.
        apply elem_of_map_to_list in Hin. by apply (Hr id).
      * intros _. done.
Qed.

(** [Stack::FindTask] finds a task only in one of the stack's services,
    and finds nothing exactly when no service has the task. *)
Theorem FindTask_spec (s : Stack) (taskID : string) :
  (forall t, Stack_FindTask s taskID = Some t ->
     exists su sv, Stack_FindService s su = Some sv /\ Service_FindTask sv taskID = Some t) /\
  (Stack_FindTask s taskID = None <->
     forall su sv, Stack_FindService s su = Some sv -> Service_FindTask sv taskID = None).
Proof.
  unfold Stack_FindTask, Stack_FindService. split.
  - intros t Ht. apply find_first_Some in Ht as ([su sv] & Hin & Hf).
    apply elem_of_map_to_list in Hin. eauto.
  - rewrite find_first_None. split.
    + intros H su sv Hs. apply (H (su, sv)). by apply elem_of_map_to_list.
    + intros H [su sv] Hin. apply elem_of_map_to_list in Hin. by apply (H su).
Qed.

End StackDomainFacts.

(* --------------------------------------------------------------------- *)
(** ** InMemoryStackRepository: queries, counters and the preview          *)
(* --------------------------------------------------------------------- *)

Module StackQueryFacts.
Import StackDomain StackRepo CountFacts StackDomainFacts.

Lemma foldl_sum_shift {A} (f : A -> nat) (l : list (string * A)) (n : nat) :
  foldl (fun count (kv : string * A) => (count + f kv.2)%nat) n l =
  (n + foldl (fun count (kv : string * A) => (count + f kv.2)%nat) 0 l)%nat.
Proof.
  revert n. induction l as [|kv l IH]; intros n; simpl; [lia|].
  rewrite IH. symmetry. rewrite IH. lia.
Qed.

Lemma stack_count_if_length (p : Stack -> bool) (m : store) :
  count_if p m = length (filter (fun kv => p kv.2 = true) (map_to_list m)).
Proof. unfold count_if. rewrite foldl_count_filter. done. Qed.

(** The stack counters are consistent: [CountAbnormal] counts only
    deployed stacks, and no stack is counted both as running normally and
    as abnormal. *)
Theorem stack_counters_bounds (m : store) :
  (CountAbnormal m <= CountDeployed m)%nat /\
  (CountDeployed m <= Count m)%nat /\
  (CountRunningNormally m + CountAbnormal m <= Count m)%nat.
Proof.
  unfold CountAbnormal, CountDeployed, CountRunningNormally, Count.
  rewrite !stack_count_if_length, <- length_map_to_list.
  generalize (map_to_list m) as l.
  induction l as [|[k s] l IH]; [simpl; lia|].
  rewrite !filter_cons. simpl.
  destruct (Stack_IsRunningNormally s), (Stack_IsDeployed s); simpl;
    repeat case_decide; simpl in *; try congruence; lia.
Qed.

(** [Remove(u)] reports whether [u] was stored, leaves nothing under [u],
    keeps the other stacks, and lowers [Count] by one and [CountTotalTasks]
    by the removed stack's task count when it erased one. *)
Theorem Remove_counts (u : string) (m : store) :
  ((Remove u m).1 = true <-> is_Some (FindByUUID u m)) /\
  FindByUUID u (Remove u m).2 = None /\
  (forall u', u' <> u -> FindByUUID u' (Remove u m).2 = FindByUUID u' m) /\
  Count m = (Count (Remove u m).2 + if (Remove u m).1 then 1 else 0)%nat /\
  CountTotalTasks m =
    (CountTotalTasks (Remove u m).2 +
     match FindByUUID u m with Some s => Stack_GetTotalTaskCount s | None => 0 end)%nat.
Proof.
  unfold Remove, FindByUUID, Count, CountTotalTasks. simpl.
  split; [|split; [|split; [|split]]].
  - by rewrite bool_decide_eq_true.
  - apply lookup_delete_eq.
  - intros u' Hne. by apply lookup_delete_ne.
  - rewrite map_size_delete. destruct (m !! u) as [s|] eqn:Hu; simpl; [|lia].
    assert (size m <> 0%nat).
    { intros Hz. apply map_size_empty_inv in Hz. rewrite Hz, lookup_empty in Hu. done. }
    lia.
  - destruct (m !! u) as [s|] eqn:Hu.
    + rewrite <- (foldl_sum_Permutation Stack_GetTotalTaskCount _ _ 0
                   (map_to_list_delete _ _ _ Hu)).
      simpl. rewrite foldl_sum_shift. lia.
    + rewrite delete_id by done. lia.
Qed.

(** [FindStackByTaskID] returns only a stored stack that has the task, and
    returns nothing exactly when no stored stack has it. *)
Theorem FindStackByTaskID_spec (taskID : string) (m : store) :
  (forall s, FindStackByTaskID taskID m = Some s ->
     exists k, FindByUUID k m = Some s /\ is_Some (Stack_FindTask s taskID)) /\
  (FindStackByTaskID taskID m = None <->
     forall k s, FindByUUID k m = Some s -> Stack_FindTask s taskID = None).
Proof.
  unfold FindStackByTaskID, FindByUUID. split.
  - intros s Hs. apply find_first_Some in Hs as ([k s'] & Hin & Hf). simpl in Hf.
    destruct (Stack_FindTask s' taskID) eqn:Ht; [|done]. injection Hf as <-.
    apply elem_of_map_to_list in Hin. exists k. split; [done|]. by rewrite Ht.
  - rewrite find_first_None. split.
    + intros H k s Hs. specialize (H (k, s)). simpl in H.
      destruct (Stack_FindTask s taskID); [|done].
      discriminate H. by apply elem_of_map_to_list.
    + intros H [k s] Hin. apply elem_of_map_to_list in Hin. simpl.
      by rewrite (H k s Hin).
Qed.

End StackQueryFacts.

Module StackKeyedFacts.
Import StackDomain StackRepo.

Lemma keyed_SaveAll (l : list Stack) (m : store) :
  keyed m -> keyed (SaveAll l m).
Proof.
  revert m. induction l as [|s l IH]; intros m Hm; [done|].
  apply IH. unfold keyed. by apply map_Forall_insert_2.
Qed.

(** Every operation that writes the stack store keeps each stack under its
    own uuid: the empty store, [Save], [SaveAll], [Remove], [Clear] and the
    collector's [CollectStackInfo]. *)
Theorem keyed_preserved (m : store) (Hm : keyed m) :
  keyed ∅ /\
  (forall s, keyed (Save s m)) /\
  (forall l, keyed (SaveAll l m)) /\
  (forall u, keyed (Remove u m).2) /\
  keyed (Clear m) /\
  (forall o, keyed (CollectStackInfo o m)).
Proof.
  split; [apply map_Forall_empty|].
  split; [intros s; unfold keyed, Save; by apply map_Forall_insert_2|].
  split; [intros l; by apply keyed_SaveAll|].
  split; [intros u; unfold keyed, Remove; simpl; by apply map_Forall_delete|].
  split; [apply map_Forall_empty|].
  intros [l|]; simpl; [by apply keyed_SaveAll|done].
Qed.

Definition keyed_sample : store :=
  SaveAll [Stack_new "s-1" "first"; Stack_new "s-2" "second"] ∅.

Lemma keyed_preserved_witness :
  keyed keyed_sample /\ keyed (Save (Stack_new "s-3" "third") keyed_sample).
Proof.
  assert (H : keyed keyed_sample) by (apply (bool_decide_unpack _); vm_compute; reflexivity).
  split; [exact H|]. apply (keyed_preserved keyed_sample H).
Defined.

End StackKeyedFacts.

Module StackPreviewFacts.
Import StackDomain StackRepo StackControl.

Lemma uuids_of_filter (P : Stack -> Prop) `{forall s, Decision (P s)}
    (l : list (string * Stack)) :
  Forall (fun kv => m_stackUUID kv.2 = kv.1) l ->
  m_stackUUID <$> filter P (snd <$> l) = fst <$> filter (fun kv => P kv.2) l.
Proof.
  induction l as [|[k s] l IH]; intros Hl; [done|].
  apply Forall_cons in Hl as [Hk Hl]. simpl in Hk.
  rewrite fmap_cons, !filter_cons. simpl.
  specialize (IH Hl). case_decide; rewrite ?fmap_cons, IH; [by rewrite Hk|done].
Qed.

(** On a store that keeps each stack under its uuid, [PreviewStacksByLabel]
    succeeds with code 0 and lists, without repetition, exactly the uuids of
    the stored stacks that have the label. *)
Theorem PreviewStacksByLabel_spec (repo : store) (labelUUID : string)
    (Hkeyed : keyed repo) :
  success (PreviewStacksByLabel repo labelUUID) = true /\
  errorCode (PreviewStacksByLabel repo labelUUID) = 0 /\
  NoDup (data (PreviewStacksByLabel repo labelUUID)) /\
  (forall k, k ∈ data (PreviewStacksByLabel repo labelUUID) <->
     exists s, FindByUUID k repo = Some s /\ Stack_HasLabel s labelUUID = true).
Proof.
  unfold PreviewStacksByLabel, FindByLabel, GetAll, FindByUUID. simpl.
  assert (Hf : Forall (fun kv : string * Stack => m_stackUUID kv.2 = kv.1) (map_to_list repo)).
  { apply map_Forall_to_list in Hkeyed. eapply Forall_impl; [exact Hkeyed|].
    intros [k s]. done. }
  rewrite (uuids_of_filter _ _ Hf).
  split; [done|split; [done|split]].
  - apply (sublist_NoDup _ (map_to_list repo).*1); [apply NoDup_fst_map_to_list|].
    apply fmap_sublist, sublist_filter.
  - intros k. rewrite list_elem_of_fmap. split.
    + intros ([k' s] & -> & Hin). apply list_elem_of_filter in Hin as [Hl Hin].
      apply elem_of_map_to_list in Hin. simpl in *. eauto.
    + intros (s & Hs & Hl). exists (k, s). split; [done|].
      apply list_elem_of_filter. split; [done|]. by apply elem_of_map_to_list.
Qed.

Definition preview_sample : store :=
  SaveAll [(Stack_AddLabel (Stack_new "s-1" "first") (mkStackLabelInfo "L" "lbl-1")).2;
           Stack_new "s-2" "second"] ∅.

Lemma PreviewStacksByLabel_spec_witness :
  keyed preview_sample /\
  data (PreviewStacksByLabel preview_sample "lbl-1") = ["s-1"] /\
  NoDup (data (PreviewStacksByLabel preview_sample "lbl-1")).
Proof.
  assert (H : keyed preview_sample) by (apply (bool_decide_unpack _); vm_compute; reflexivity).
  split; [exact H|]. split; [vm_compute; reflexivity|].
  apply (PreviewStacksByLabel_spec preview_sample "lbl-1" H).
Defined.

End StackPreviewFacts.

(* --------------------------------------------------------------------- *)
(** ** Chassis: slots and board counters                                  *)
(* --------------------------------------------------------------------- *)

Module ChassisFacts.

(** [AddOrUpdateBoard] and [GetBoardByNumber] agree on the 14 slots: a board
    numbered 1..14 is found under its number afterwards and the other slots
    are unchanged; a board with any other number is ignored. *)
Theorem AddOrUpdateBoard_GetBoardByNumber (b : Board) (c : Chassis)
    (Hlen : length (m_boards c) = BOARDS_PER_CHASSIS) :
  length (m_boards (Chassis_AddOrUpdateBoard b c)) = BOARDS_PER_CHASSIS /\
  m_chassisNumber (Chassis_AddOrUpdateBoard b c) = m_chassisNumber c /\
  (1 <= m_boardNumber b <= 14 ->
     Chassis_GetBoardByNumber (m_boardNumber b) (Chassis_AddOrUpdateBoard b c) = Some b) /\
  (forall n, n <> m_boardNumber b ->
     Chassis_GetBoardByNumber n (Chassis_AddOrUpdateBoard b c) = Chassis_GetBoardByNumber n c) /\
  (~ (1 <= m_boardNumber b <= 14) -> Chassis_AddOrUpdateBoard b c = c).
Proof.
  unfold Chassis_AddOrUpdateBoard, Chassis_GetBoardByNumber, BOARDS_PER_CHASSIS in *.
  change (Z.of_nat 14) with 14.
  destruct ((0 <=? m_boardNumber b - 1) && (m_boardNumber b - 1 <? 14)) eqn:Hin;
    rewrite ?andb_true_iff, ?andb_false_iff, ?Z.leb_le, ?Z.ltb_lt, ?Z.leb_gt, ?Z.ltb_ge in Hin;
    simpl.
  - split; [by rewrite length_insert|]. split; [done|]. split.
    + intros _.
      apply list_lookup_insert_eq. lia.
    + split; [|lia]. intros n Hn.
      destruct ((0 <=? n - 1) && (n - 1 <? 14)) eqn:Hn2; [|done].
      apply andb_true_iff in Hn2 as [Hn2 Hn3]. apply Z.leb_le in Hn2. apply list_lookup_insert_ne. lia.
  - split; [done|]. split; [done|]. split; [lia|]. split; [done|done].
Qed.

Lemma AddOrUpdateBoard_GetBoardByNumber_witness :
  length (m_boards Chassis_default) = BOARDS_PER_CHASSIS /\
  Chassis_GetBoardByNumber 3
    (Chassis_AddOrUpdateBoard (Board_new "10.0.0.3" 3 BoardType_Computing) Chassis_default)
  = Some (Board_new "10.0.0.3" 3 BoardType_Computing).
Proof.
  split; [reflexivity|].
  apply (AddOrUpdateBoard_GetBoardByNumber (Board_new "10.0.0.3" 3 BoardType_Computing)
           Chassis_default); [reflexivity|simpl; lia].
Defined.

Lemma filter_disjoint_length {A} (p q : A -> bool) (l : list A) :
  (forall x, p x = true -> q x = false) ->
  (length (filter (fun x => p x = true) l) + length (filter (fun x => q x = true) l) <= length l)%nat.
Proof.
  intros Hpq. induction l as [|x l IH]; [simpl; lia|].
  rewrite !filter_cons. specialize (Hpq x).
  destruct (p x), (q x); simpl; repeat case_decide; simpl; try congruence;
    try (specialize (Hpq eq_refl); discriminate); lia.
Qed.

Lemma filter_incl_length {A} (p q : A -> bool) (l : list A) :
  (forall x, p x = true -> q x = true) ->
  (length (filter (fun x => p x = true) l) <= length (filter (fun x => q x = true) l))%nat.
Proof.
  intros Hpq. induction l as [|x l IH]; [simpl; lia|].
  rewrite !filter_cons. specialize (Hpq x).
  destruct (p x), (q x); simpl; repeat case_decide; simpl; try congruence;
    try (specialize (Hpq eq_refl); discriminate); lia.
Qed.

(** The per-chassis board counters never overlap: normal and abnormal
    boards are at most all boards, and offline boards are among the
    abnormal ones. *)
Theorem chassis_counters_bounds (c : Chassis) :
  Chassis_CountNormalBoards c + Chassis_CountAbnormalBoards c <= Z.of_nat (length (m_boards c)) /\
  Chassis_CountOfflineBoards c <= Chassis_CountAbnormalBoards c.
Proof.
  unfold Chassis_CountNormalBoards, Chassis_CountAbnormalBoards,
    Chassis_CountOfflineBoards, count_boards.
  split.
  - rewrite <- Nat2Z.inj_add. apply inj_le. apply filter_disjoint_length.
    intros b. unfold Board_IsAbnormal, BoardOperationalStatus_eqb.
    destruct (m_status b); done.
  - apply inj_le. apply filter_incl_length.
    intros b. unfold Board_IsAbnormal, BoardOperationalStatus_eqb.
    destruct (m_status b); done.
Qed.

End ChassisFacts.

(* --------------------------------------------------------------------- *)
(** ** InMemoryChassisRepository: the back buffer and the counters        *)
(* --------------------------------------------------------------------- *)

Module ChassisBufferFacts.
Import ChassisRepo.

(** The constructor and [Initialize] start with two different buffers, and
    [SaveAll] keeps them different; after [SaveAll] the back buffer holds
    the snapshot that was active before. *)
Theorem buffers_distinct_kept :
  buffers_distinct new /\
  (forall x st, buffers_distinct (Initialize x st)) /\
  (forall x st, buffers_distinct st ->
     buffers_distinct (SaveAll x st) /\
     deref (SaveAll x st) (m_backBuffer (SaveAll x st)) = active st).
Proof.
  split; [done|]. split; [done|].
  intros x [bA bB [] []] H; unfold buffers_distinct in *; simpl in *; try done;
    split; done.
Qed.

Lemma buffers_distinct_kept_witness :
  buffers_distinct new /\
  deref (SaveAll [] new) (m_backBuffer (SaveAll [] new)) = active new.
Proof.
  assert (H : buffers_distinct new) by discriminate.
  split; [exact H|]. apply (buffers_distinct_kept). exact H.
Defined.

(** [Save] writes only the back buffer: with two distinct buffers, readers
    ([GetAll], [FindByNumber]) do not see it, and the next [SaveAll]
    overwrites it as if it had never happened. *)
Theorem Save_back_buffer_only (c : Chassis) (st : state) (H : buffers_distinct st) :
  buffers_distinct (Save c st) /\
  GetAll (Save c st) = GetAll st /\
  (forall n, FindByNumber n (Save c st) = FindByNumber n st) /\
  (forall x, SaveAll x (Save c st) = SaveAll x st).
Proof.
  assert (Hg : GetAll (Save c st) = GetAll st).
  { unfold GetAll, active, Save.
    destruct (_ && _); [|done].
    destruct st as [bA bB [] []]; unfold buffers_distinct in H; simpl in *; done. }
  split; [|split; [exact Hg|split]].
  - unfold Save. destruct (_ && _); [|done].
    destruct st as [bA bB [] []]; done.
  - intros n. unfold FindByNumber. fold (GetAll (Save c st)). fold (GetAll st).
    by rewrite Hg.
  - intros x. unfold Save. destruct (_ && _); [|done].
    destruct st as [bA bB [] []]; done.
Qed.

Lemma Save_back_buffer_only_witness :
  buffers_distinct new /\
  GetAll (Save (Chassis_new 1 "c1") new) = GetAll new.
Proof.
  assert (H : buffers_distinct new) by discriminate.
  split; [exact H|]. apply (Save_back_buffer_only (Chassis_new 1 "c1") new H).
Defined.

End ChassisBufferFacts.

Module ChassisCountFacts.
Import ChassisRepo ChassisFacts.

Definition sum_step (f : Chassis -> Z) (count : Z) (c : Chassis) : Z :=
  if negb (Z.eqb (m_chassisNumber c) 0) then count + f c else count.

Lemma sum_initialised_foldl (f : Chassis -> Z) (st : state) :
  sum_initialised f st = foldl (sum_step f) 0 (active st).
Proof. done. Qed.

Lemma foldl_sum_step_shift (f : Chassis -> Z) (l : list Chassis) (n : Z) :
  foldl (sum_step f) n l = n + foldl (sum_step f) 0 l.
Proof.
  revert n. induction l as [|c l IH]; intros n; simpl; [lia|].
  rewrite IH. symmetry. rewrite IH. unfold sum_step.
  destruct (negb _); lia.
Qed.

Lemma foldl_sum_step_add (f g : Chassis -> Z) (l : list Chassis) :
  foldl (sum_step f) 0 l + foldl (sum_step g) 0 l =
  foldl (sum_step (fun c => f c + g c)) 0 l.
Proof.
  induction l as [|c l IH]; [done|]. simpl.
  rewrite (foldl_sum_step_shift f), (foldl_sum_step_shift g),
    (foldl_sum_step_shift (fun c => f c + g c)).
  unfold sum_step at 1 3 5. destruct (negb _); lia.
Qed.

Lemma foldl_sum_step_mono (f g : Chassis -> Z) (l : list Chassis) :
  Forall (fun c => f c <= g c) l ->
  foldl (sum_step f) 0 l <= foldl (sum_step g) 0 l.
Proof.
  induction l as [|c l IH]; intros Hl; [done|]. apply Forall_cons in Hl as [Hc Hl].
  simpl. rewrite (foldl_sum_step_shift f), (foldl_sum_step_shift g).
  specialize (IH Hl). unfold sum_step at 1 3. destruct (negb _); lia.
Qed.

(** When every chassis of the active snapshot has its 14 boards, the
    repository counters are consistent: normal and abnormal boards are at
    most [CountTotalBoards], and offline boards are among the abnormal
    ones. *)
Theorem repo_counters_bounds (st : state)
    (Hboards : Forall (fun c => length (m_boards c) = BOARDS_PER_CHASSIS) (GetAll st)) :
  CountNormalBoards st + CountAbnormalBoards st <= CountTotalBoards st /\
  CountOfflineBoards st <= CountAbnormalBoards st.
Proof.
  unfold CountNormalBoards, CountAbnormalBoards, CountOfflineBoards, CountTotalBoards.
  rewrite !sum_initialised_foldl, foldl_sum_step_add.
  unfold GetAll in Hboards. split.
  - apply foldl_sum_step_mono. eapply Forall_impl; [exact Hboards|].
    intros c Hc. rewrite <- Hc. apply chassis_counters_bounds.
  - apply foldl_sum_step_mono. apply Forall_forall. intros c _.
    apply chassis_counters_bounds.
Qed.

Lemma repo_counters_bounds_witness :
  let st := Initialize CreateFullTopology new in
  Forall (fun c => length (m_boards c) = BOARDS_PER_CHASSIS) (GetAll st) /\
  CountNormalBoards st + CountAbnormalBoards st <= CountTotalBoards st.
Proof.
  cbv zeta.
  assert (H : Forall (fun c => length (m_boards c) = BOARDS_PER_CHASSIS)
                (GetAll (Initialize CreateFullTopology new)))
    by (apply (bool_decide_unpack _); vm_compute; reflexivity).
  split; [exact H|]. apply (repo_counters_bounds _ H).
Defined.

End ChassisCountFacts.

(* --------------------------------------------------------------------- *)
(** ** ChassisFactory                                                      *)
(* --------------------------------------------------------------------- *)

Module FactoryFacts.






End FactoryFacts.

Module TopologyFacts.
Import ChassisRepo.

Definition topology_state : state := Initialize CreateFullTopology new.

(** A repository initialised with [CreateFullTopology] holds chassis 1..9,
    each built from its default config; it counts 126 boards, none normal,
    none abnormal and no task; the 126 board addresses are pairwise
    distinct, and [FindByBoardAddress] finds every board in its own
    chassis. *)
Theorem FullTopology_spec :
  (forall n, 1 <= n <= 9 ->
     FindByNumber n topology_state = Some (CreateChassis (CreateDefaultConfig n))) /\
  CountTotalBoards topology_state = 126 /\
  CountNormalBoards topology_state = 0 /\
  CountAbnormalBoards topology_state = 0 /\
  CountTotalTasks topology_state = 0 /\
  NoDup (m_boardAddress <$> concat (m_boards <$> GetAll topology_state)) /\
  Forall (fun c => Forall (fun b =>
      option_map m_chassisNumber (FindByBoardAddress (m_boardAddress b) topology_state)
      = Some (m_chassisNumber c)) (m_boards c)) (GetAll topology_state).
Proof.
  split.
  { intros n Hn.
    assert (n = 1 \/ n = 2 \/ n = 3 \/ n = 4 \/ n = 5 \/ n = 6 \/ n = 7 \/ n = 8 \/ n = 9)
      as Hcase by lia.
    repeat destruct Hcase as [-> | Hcase]; try (subst n); vm_compute; reflexivity. }
  split; [vm_compute; reflexivity|].
  split; [vm_compute; reflexivity|].
  split; [vm_compute; reflexivity|].
  split; [vm_compute; reflexivity|].
  split; apply (bool_decide_unpack _); vm_compute; reflexivity.
Qed.

End TopologyFacts.

(* --------------------------------------------------------------------- *)
(** ** StateBroadcaster: the response id counter                          *)
(* --------------------------------------------------------------------- *)

Module ResponseIdFacts.
Import BroadcastFacts.

Lemma byte_of_shift (x : Z) (k : Z) (Hk : 0 <= k) :
  Z.land (Z.shiftr x k) 255 = (x / 2 ^ k) mod 256.
Proof.
  rewrite Z.shiftr_div_pow2 by done.
  change 255 with (Z.ones 8). rewrite Z.land_ones by lia. done.
Qed.

(** For a [uint32_t] counter value, the packet carries it in bytes 24..27
    (low byte first, as sent), and the counter moves to [id + 1], wrapping
    to 0 when it would reach 0xFFFFFFFF; the next value is never
    0xFFFFFFFF. *)
Theorem responseID_counter (responseID : Z) (repo : ChassisRepo.state)
    (Hid : 0 <= responseID < 2 ^ 32) :
  let pkt := fst (BroadcastChassisStates responseID repo) in
  let next := snd (BroadcastChassisStates responseID repo) in
  rm_responseID pkt = responseID /\
  (exists b0 b1 b2 b3, take 4 (drop 24 (serialize pkt)) = [b0; b1; b2; b3] /\
     Forall (fun b => 0 <= b < 256) [b0; b1; b2; b3] /\
     b0 + 256 * b1 + 65536 * b2 + 16777216 * b3 = responseID) /\
  0 <= next < 0xFFFFFFFF /\
  next = (if responseID + 1 >=? 0xFFFFFFFF then 0 else responseID + 1).
Proof.
  cbv zeta.
  destruct (RMPacket_new_invariants responseID) as (Hs & Hb & Ht).
  destruct (foldl_fill_invariants (GetSystemOverview repo) _ Hs Hb Ht)
    as ((Hh & _) & _ & Hid' & _).
  unfold BroadcastChassisStates. cbn [fst snd].
  set (pkt := foldl fill_chassis (RMPacket_new responseID) (GetSystemOverview repo)) in *.
  cbn [RMPacket_new rm_responseID] in Hid'.
  split; [done|]. split.
  - unfold serialize. rewrite Hid'.
    rewrite drop_app_ge by (rewrite Hh; lia). rewrite Hh.
    change (24 - 22)%nat with 2%nat.
    rewrite (drop_app_length' (le_bytes 2 _)) by (rewrite length_le_bytes; done).
    rewrite take_app_length' by (rewrite length_le_bytes; done).
    unfold le_bytes. cbn [seq map].
    eexists _, _, _, _. split; [reflexivity|].
    rewrite !byte_of_shift by lia. cbn -[Z.pow].
    split; [repeat constructor; apply Z.mod_pos_bound; lia|].
    change (2 ^ (8 * 0)) with 1. change (2 ^ (8 * 1)) with 256.
    change (2 ^ (8 * 2)) with 65536. change (2 ^ (8 * 3)) with 16777216.
    rewrite Z.div_1_r.
    Z.to_euclidean_division_equations. nia.
  - destruct (Z.geb_spec (responseID + 1) 0xFFFFFFFF).
    + assert (Hz : (if (responseID + 1) mod 2 ^ 32 =? 0xFFFFFFFF then 0
                    else (responseID + 1) mod 2 ^ 32) = 0).
      { assert (responseID + 1 = 0xFFFFFFFF \/ responseID + 1 = 2 ^ 32) as [E|E] by lia;
          rewrite E; vm_compute; reflexivity. }
      rewrite Hz. lia.
    + rewrite Z.mod_small by lia.
      destruct (Z.eqb_spec (responseID + 1) 0xFFFFFFFF); [lia|]. lia.
Qed.

Lemma responseID_counter_witness :
  0 <= 41 < 2 ^ 32 /\
  snd (BroadcastChassisStates 41 ChassisRepo.new) = 42.
Proof.
  split; [lia|].
  destruct (responseID_counter 41 ChassisRepo.new) as (_ & _ & _ & Hn); [lia|].
  exact Hn.
Defined.

End ResponseIdFacts.

(* --------------------------------------------------------------------- *)
(** ** Board: what a sync leaves visible                                   *)
(* --------------------------------------------------------------------- *)

Module BoardStatusFacts.
Import BoardFacts CollectorFacts.

(** After [UpdateFromApiData(s, ts)] a board is online, abnormal exactly
    when [s] is not 0, and counts the first eight tasks of [ts] if it can
    run tasks and none otherwise; its identity is unchanged.  After
    [MarkAsOffline] it is offline, abnormal, and counts no task. *)
Theorem board_sync_status (b : Board) (s : Z) (ts : list TaskStatusInfo)
    (Hlen : length (m_tasks b) = MAX_TASKS_PER_BOARD) :
  let b' := Board_UpdateFromApiData b s ts in
  Board_IsOnline b' = true /\
  Board_IsAbnormal b' = negb (Z.eqb s 0) /\
  m_taskCount b' = (if Board_CanRunTasks b
                    then Z.of_nat (Nat.min (length ts) MAX_TASKS_PER_BOARD) else 0) /\
  m_boardAddress b' = m_boardAddress b /\ m_boardNumber b' = m_boardNumber b /\
  m_boardType b' = m_boardType b /\
  Board_IsOnline (Board_MarkAsOffline b) = false /\
  Board_IsAbnormal (Board_MarkAsOffline b) = true /\
  m_taskCount (Board_MarkAsOffline b) = 0.
Proof.
  cbv zeta.
  destruct (UpdateFromApiData_ids b s ts) as (Ha & Hn & Ht).
  assert (Hst : m_status (Board_UpdateFromApiData b s ts) =
                (if Z.eqb s 0 then BOS_Normal else BOS_Abnormal) /\
                m_taskCount (Board_UpdateFromApiData b s ts) =
                (if Board_CanRunTasks b
                 then Z.of_nat (Nat.min (length ts) MAX_TASKS_PER_BOARD) else 0)).
  { destruct (Board_CanRunTasks b) eqn:Hc.
    - destruct (UpdateFromApiData_computing b s ts Hc Hlen) as (H1 & H2 & _). done.
    - destruct (UpdateFromApiData_not_computing b s ts Hc) as (H1 & H2 & _). done. }
  destruct Hst as [Hs Hc].
  unfold Board_IsOnline, Board_IsAbnormal. rewrite Hs.
  split; [by destruct (Z.eqb s 0)|]. split; [by destruct (Z.eqb s 0)|].
  split; [done|]. split; [done|]. split; [done|]. split; [done|].
  done.
Qed.

Lemma board_sync_status_witness :
  length (m_tasks Board_default) = MAX_TASKS_PER_BOARD /\
  Board_IsAbnormal (Board_UpdateFromApiData Board_default 1 []) = true.
Proof.
  split; [reflexivity|].
  destruct (board_sync_status Board_default 1 []) as (_ & H & _); [reflexivity|].
  exact H.
Defined.

End BoardStatusFacts.

(* --------------------------------------------------------------------- *)
(** ** StackControlService and the command listener: backend calls       *)
(* --------------------------------------------------------------------- *)

Module StackCallFacts.
Import StackControl.

Definition deploy_result_ok (resp : DeployResponse) (r : ResponseDTO DeployResultDTO) : Prop :=
  success r = true /\ errorCode r = 0 /\
  successStacks (data r) = successStackInfos resp /\
  failureStacks (data r) = failureStackInfos resp /\
  successCount (data r) = Z.of_nat (length (successStackInfos resp)) /\
  failureCount (data r) = Z.of_nat (length (failureStackInfos resp)) /\
  totalCount (data r) = successCount (data r) + failureCount (data r).

Definition backend_failed (r : ResponseDTO DeployResultDTO) : Prop :=
  success r = false /\ errorCode r = -1 /\ message r = msg_backend_failed.

Lemma ConvertDeployResponse_ok (resp : DeployResponse) (msg : string) :
  deploy_result_ok resp (ResponseDTO_Success (ConvertDeployResponse resp) msg).
Proof.
  unfold deploy_result_ok, ConvertDeployResponse. simpl.
  do 6 (split; [done|]). lia.
Qed.

(** With a non-empty label list, [DeployByLabels] and [UndeployByLabels]
    call the backend exactly once with the whole list; they report the
    backend's stacks with [totalCount = successCount + failureCount] when
    it answers, and fail with code -1 when it does not. *)
Theorem ByLabels_nonempty (api : QywApiClient) (command : DeployCommandDTO)
    (log : list ApiCall) (Hne : stackLabels command <> []) :
  (DeployByLabels api command log).2 = log ++ [Api_Deploy (stackLabels command)] /\
  (UndeployByLabels api command log).2 = log ++ [Api_Undeploy (stackLabels command)] /\
  match api_Deploy api (stackLabels command) with
  | Some resp => deploy_result_ok resp (DeployByLabels api command log).1
  | None => backend_failed (DeployByLabels api command log).1
  end /\
  match api_Undeploy api (stackLabels command) with
  | Some resp => deploy_result_ok resp (UndeployByLabels api command log).1
  | None => backend_failed (UndeployByLabels api command log).1
  end.
Proof.
  unfold DeployByLabels, UndeployByLabels.
  destruct (stackLabels command) as [|l ls]; [done|].
  destruct (api_Deploy api (l :: ls)), (api_Undeploy api (l :: ls)); simpl;
    repeat split; try apply ConvertDeployResponse_ok.
Qed.

Lemma ByLabels_nonempty_witness :
  stackLabels (mkDeployCommandDTO ["lbl-1"; "lbl-2"]) <> [] /\
  (DeployByLabels sample_api (mkDeployCommandDTO ["lbl-1"; "lbl-2"]) []).2 =
    [Api_Deploy ["lbl-1"; "lbl-2"]].
Proof.
  assert (H : stackLabels (mkDeployCommandDTO ["lbl-1"; "lbl-2"]) <> []) by discriminate.
  split; [exact H|].
  destruct (ByLabels_nonempty sample_api _ [] H) as (Hd & _). exact Hd.
Defined.

(** The UDP handlers always call the backend once, with the label field
    read as a C string, even when that string is empty; they answer
    Success exactly when the backend answers. *)
Theorem Handle_calls_backend_once (api : QywApiClient) (labelField : string)
    (log : list ApiCall) :
  (HandleDeployStack api labelField log).2 = log ++ [Api_Deploy [c_str labelField]] /\
  (HandleUndeployStack api labelField log).2 = log ++ [Api_Undeploy [c_str labelField]] /\
  ((HandleDeployStack api labelField log).1.1 = CommandResult_Success <->
     is_Some (api_Deploy api [c_str labelField])) /\
  ((HandleUndeployStack api labelField log).1.1 = CommandResult_Success <->
     is_Some (api_Undeploy api [c_str labelField])).
Proof.
  unfold HandleDeployStack, HandleUndeployStack, DeployByLabels, UndeployByLabels.
  simpl. unfold command_result.
  destruct (api_Deploy api [c_str labelField]), (api_Undeploy api [c_str labelField]);
    simpl; repeat split; try done; intros H; try discriminate H;
    destruct H as [? H]; discriminate H.
Qed.

End StackCallFacts.

(* --------------------------------------------------------------------- *)
(** ** InMemoryChassisRepository: lookups                                  *)
(* --------------------------------------------------------------------- *)

Module ChassisLookupFacts.
Import ChassisRepo.

(** [FindByNumber(n)] returns the entry at index [n - 1] of the active
    snapshot when [n] is in 1..9 and that entry is initialised (number not
    0); it does not compare the entry's number with [n]. *)
Theorem FindByNumber_spec (n : Z) (st : state) (c : Chassis) :
  length (GetAll st) = TOTAL_CHASSIS_COUNT ->
  FindByNumber n st = Some c <->
  1 <= n <= 9 /\ GetAll st !! Z.to_nat (n - 1) = Some c /\ m_chassisNumber c <> 0.
Proof.
  intros Hlen. unfold FindByNumber, GetAll in *. unfold TOTAL_CHASSIS_COUNT in *.
  change (Z.of_nat 9) with 9.
  destruct (Z.ltb_spec n 1), (Z.ltb_spec 9 n); simpl; try (split; [done|lia]).
  destruct (active st !! Z.to_nat (n - 1)) as [c'|] eqn:E.
  - destruct (Z.eqb_spec (m_chassisNumber c') 0).
    + split; [done|]. intros (_ & [= ->] & ?). done.
    + split; [intros [= ->]; done|]. intros (_ & [= ->] & _). done.
  - apply lookup_ge_None in E. lia.
Qed.

Lemma FindByNumber_spec_witness :
  length (GetAll (Initialize CreateFullTopology new)) = TOTAL_CHASSIS_COUNT /\
  (FindByNumber 4 (Initialize CreateFullTopology new) =
     Some (CreateChassis (CreateDefaultConfig 4)) <->
   1 <= 4 <= 9 /\
   GetAll (Initialize CreateFullTopology new) !! Z.to_nat (4 - 1) =
     Some (CreateChassis (CreateDefaultConfig 4)) /\
   m_chassisNumber (CreateChassis (CreateDefaultConfig 4)) <> 0).
Proof.
  assert (H : length (GetAll (Initialize CreateFullTopology new)) = TOTAL_CHASSIS_COUNT)
    by (vm_compute; reflexivity).
  split; [exact H|]. apply (FindByNumber_spec 4 _ _ H).
Defined.

(** [FindByBoardAddress(addr)] returns an initialised chassis of the active
    snapshot that has a board with address [addr], and returns nothing
    exactly when no initialised chassis has one. *)
Theorem FindByBoardAddress_spec (addr : string) (st : state) :
  (forall c, FindByBoardAddress addr st = Some c ->
     In c (GetAll st) /\ m_chassisNumber c <> 0 /\
     exists b, In b (m_boards c) /\ m_boardAddress b = addr) /\
  (FindByBoardAddress addr st = None <->
     forall c, In c (GetAll st) -> m_chassisNumber c <> 0 ->
     forall b, In b (m_boards c) -> m_boardAddress b <> addr).
Proof.
  unfold FindByBoardAddress, GetAll, Chassis_GetBoardByAddress. split.
  - intros c Hc. apply find_some in Hc as [Hin Hf].
    apply andb_true_iff in Hf as [Hn Hb]. apply negb_true_iff, Z.eqb_neq in Hn.
    apply bool_decide_eq_true in Hb as [b Hb]. apply find_some in Hb as [Hbin Hbe].
    apply String.eqb_eq in Hbe. eauto.
  - split.
    + intros Hnone c Hc Hn b Hb Heq. apply (find_none _ _ Hnone) in Hc.
      apply andb_false_iff in Hc as [Hc|Hc].
      * apply negb_false_iff, Z.eqb_eq in Hc. done.
      * apply bool_decide_eq_false in Hc. apply Hc.
        destruct (List.find _ (m_boards c)) as [b'|] eqn:E; [by eexists|].
        apply (find_none _ _ E) in Hb. apply String.eqb_neq in Hb. done.
    + intros Hall. destruct (List.find _ (active st)) as [c|] eqn:E; [|done].
      exfalso. apply find_some in E as [Hin Hf].
      apply andb_true_iff in Hf as [Hn Hb]. apply negb_true_iff, Z.eqb_neq in Hn.
      apply bool_decide_eq_true in Hb as [b Hb]. apply find_some in Hb as [Hbin Hbe].
      apply String.eqb_eq in Hbe. exact (Hall c Hin Hn b Hbin Hbe).
Qed.

End ChassisLookupFacts.
